(* ===== verification/_CoqProject ===== *)
-Q . S2P
Prelude.v
PyExc.v
PyVal.v
Pretty.v
JsonRead.v
Runtime.v
Helpers.v
Payload.v
DateFormat.v
Actions.v
Contract.v
Session.v
