(* ===== verification/Prelude.v ===== *)
(** * A verification development for [src/app.py]

    ** The program

    [src/app.py] is a Streamlit page: a script that runs from top to
    bottom on every interaction.  It reads a configuration from the
    sidebar ([BASE_URL], [token_input]), lets the operator choose one of
    seven actions (list users, get a user, create/update a user, get
    placements, get the "big three", generate a booklet PDF, generate a
    calendar PDF), and, when the action's button is clicked, sends one
    HTTP request to a backend through [make_request] and renders the
    answer with [show_response].  A sidebar button checks [/health].
    The parts interact by calls only: every action block calls
    [get_headers] and [make_request], then [show_response]; the only
    state is the page being built and the requests sent.

    ** Files, in dependency order

    - [Prelude] (this file): the notation [s1 ^^ s2] for string
      concatenation in [app_scope], the hint databases [app] and
      [app_rw], the tactics [app_simpl] and [case_tests], generic lemmas
      on strings, on association lists kept in insertion order (Python
      dicts: [assoc_set], [assoc_lookup]) and on integer ranges checked
      by computation ([zrange], [forallb_zrange]).
    - [PyExc]: Python's exception classes met by the program, with the
      [requests.exceptions] hierarchy as data ([bases]); [issubclass],
      the test an [except C:] clause makes, is a search with fuel
      [S (depth c)], proved sound and complete for the subclass relation
      with any fuel above the depth ([issubclass_fuel_correct]): each
      base is strictly shallower than its subclass ([depth_bases]).
    - [PyVal]: the values [resp.json()] returns and the Python operations
      the page applies to them: truth value, [len], [.get], [d[k]],
      [str]/[repr]; [str] of an [int] with its decimal round trip
      ([int_of_str_int_str]).
    - [Pretty]: [pretty] (lines 43-48), that is [json.dumps] with
      [indent=2, ensure_ascii=False] as CPython's encoder writes it, and
      the JSON grammar of string literals as a reader.
    - [JsonRead]: a reference JSON reader with fuel, used to state that
      what [pretty] writes is JSON that reads back as the same value.
    - [Runtime]: one run of the script as a state and exception monad
      [Script] (stdpp's [mret]/[≫=]): the page as a list of elements, the
      requests sent as a list, the backend as an oracle [Net] answering
      each request (given the requests before it) with a [Response] or an
      exception; the HTTP data of [requests] and [Response.__bool__]
      ([response_ok]); [sends l c], the requests a script sends, with
      compositional lemmas.
    - [Helpers]: [Config] (lines 28-38), [get_headers] (50-58),
      [make_request] (80-103), [show_response] (60-78).
    - [Payload]: the Create/Update form and [build_payload] (153-188),
      with the date and time formatting.
    - [DateFormat]: a reference reader of ISO dates and times, for the
      round trip of the two [strftime] formats.
    - [Actions]: the seven action blocks (126-266), [health_check]
      (275-286), the footer [page_footer] (271-272) and [app_run], one
      run of the whole script.
    - [Contract]: the abstract contract of the page with the backend,
      written from the specification's endpoint table (method, path,
      timeout, authentication, body of each action), the refinement
      theorem that the blocks send exactly those requests, and the
      well-formedness of those requests ([wf_request]).
    - [Session]: Streamlit's reruns.  A [Session] keeps the widget values,
      the requests sent and the last page; [step] applies one interaction
      ([Event]: a sidebar input, the select box, the other inputs, a
      button) and reruns [app_run] with the clicked button true;
      [reachable] is the step relation's closure and [run_events] its
      executable replay.  The number inputs commit only values within
      their bounds ([number_input]); the page opens with the widgets'
      defaults ([open_session], lines 29-38, 108-119, 140, 156-165, 253);
      [st.set_option('client.showErrorDetails', False)] (line 11) makes
      the box of an exception that ends a run redacted ([crash_box]).

    ** What is proved

    - Refinement: [Contract.action_block_refines]: each block sends
      exactly the request of the contract when it submits and none
      otherwise, whatever the backend answers; the Create/Update body is
      [first_name] followed by the filled fields only
      ([Payload.build_payload_spec], [Payload.build_payload_wf]).
    - Sessions: one interaction sends exactly the contract's requests for
      it, at most one ([Session.step_sends_contract]); every request of a
      reachable session is one of the contract's
      ([Session.reachable_conforms], by induction on [reachable]) and is
      well formed ([Session.sent_requests_wf]); an action can always be
      retried ([Session.retry_resends]); the base URL is read again on
      every run ([Session.base_url_takes_effect]); nothing is sent
      without a click ([Session.requests_bounded_by_clicks]); the number
      inputs stay within their bounds in every session reachable from the
      opened page ([Session.reachable_inputs_wf], an invariant proved
      once for all by [Session.reachable_inv]).
    - Rendering: [Contract.error_status_renders_nothing]: a click answered
      with a status in [400 .. 599] leaves the page as it is without the
      click, because every block guards on [if resp:] and
      [Response.__bool__] is false for such statuses; the same holds for
      the health check ([Actions.health_check_error_status_silent]),
      whose outcome is characterised by the status alone: the failure
      message appears exactly for a status outside [400 .. 599] other
      than 200 ([Actions.health_check_outcome]).
      [show_response] itself is characterised on every branch
      ([Helpers.show_response_json], [_raw_text], [_error_detail],
      [_error_text]) and never raises nor sends ([_total]); so are the PDF
      blocks ([Actions.generate_booklet_outcome]) and the Big Three
      summary lines ([Actions.summary_line_dict]).
    - Errors: [make_request] sends one request for a supported method and
      returns the response unchanged ([make_request_response]); each kind
      of transport failure gives its message and [None], and an exception
      outside [requests] escapes ([make_request_connection_error],
      [_timeout], [_other_failure], [_foreign_exception]); an unsupported
      method sends nothing ([make_request_unsupported]); [method.upper()]
      is [str.upper] on every character whose upper case is ASCII, so the
      method test agrees with Python's on any text.  On every
      action a transport failure is reported inline and the run goes on
      ([Contract.transport_failure_reported]).  A
      [ConnectTimeout] is a [ConnectionError] and is reported as an
      unreachable backend.  Uncaught exceptions of the blocks are exposed
      ([Actions.big_three_non_dict_raises], [Actions.view_all_users_success],
      [Actions.summary_line_dict]); such an exception ends the run before
      the footer and the health check, and the session shows only a
      redacted error box after the page drawn so far
      ([Session.crash_redacted]); an empty first name blocks
      the submission ([Actions.create_update_requires_first_name]).
    - Round trips: the payload's dates and times read back as ISO
      ([DateFormat.format_date_roundtrip], [format_time_roundtrip]); the
      text of [pretty] reads back as
      the value ([JsonRead.pretty_roundtrip]), string literals included
      (the lemma [Pretty.encode_basestring_roundtrip]), with non-ASCII text kept
      ([Pretty.encode_basestring_plain]).
    - Headers: [Helpers.get_headers_spec].

    ** Bounds and modelling choices

    Integers are [Z]: Python's [int] is unbounded.  The inputs' bounds are
    stated where they matter ([Actions.wf_inputs]: a user id in
    [1 .. 2^53-1], a year in [2020 .. 2100], which the widgets maintain
    by [Session.reachable_inputs_wf]; [Runtime.wf_response]: a
    three-digit status; [Payload.wf_date]: the four-digit years of the
    date input).  Strings are byte strings holding UTF-8; escaping bytes
    below [0x80] and escaping code points agree.  Fuel: [issubclass]
    gets [S (depth c)] steps, enough by [issubclass_fuel_correct];
    [JsonRead.parse_json] gets one step per character, enough by
    [JsonRead.size_le_length].  Checks over the finite ranges of dates
    and times are computed ([DateFormat.years_ok]).  Streamlit drops the
    value of a widget that a run does not draw; the session keeps it, and
    the session theorems hold for every session, so they cover both.

    ** Not modelled

    Layout calls that only arrange or decorate the page and change
    nothing the page shows or sends: [st.set_page_config] (the browser
    tab's title and the wide layout), [st.columns] (two columns of the
    form, whose inputs are modelled) and [st.spinner] (a transient
    indicator while a request runs); the JSON decoding of bodies, which is
    the library's: a [Response] carries the value [resp.json()] returns,
    or none when it raises; the PDF files, which the page never reads. *)

From Stdlib Require Import ZArith String Ascii.
From stdpp Require Import base list strings sets.
Import ListNotations.

(** Shared notation, automation and generic lemmas follow; nothing
    below models a line of [src/app.py]. *)

Declare Scope app_scope.
Delimit Scope app_scope with app.
#[local] Open Scope string_scope.

Create HintDb app discriminated.
Create Rewrite HintDb app_rw.

(** ** Strings *)

(** String concatenation, written [s1 ^^ s2] so that it never collides
    with list concatenation [++] of stdpp. *)
Notation "s1 ^^ s2" := (String.append s1 s2)
  (at level 60, right associativity) : app_scope.
Open Scope app_scope.

(** stdpp declares [String.append] [simpl never]; its two defining
    equations are stated once here and used by rewriting. *)
Lemma str_app_cons (x : ascii) (a b : string) : String x a ^^ b = String x (a ^^ b).
Proof. reflexivity. Qed.

Lemma str_app_nil_l (a : string) : "" ^^ a = a.
Proof. reflexivity. Qed.

#[export] Hint Rewrite str_app_cons str_app_nil_l : app_rw.

Lemma str_app_assoc (a b c : string) : (a ^^ b) ^^ c = a ^^ (b ^^ c).
Proof. induction a as [|x a IH]; rewrite ?str_app_cons, ?str_app_nil_l; congruence. Qed.

Lemma str_app_nil_r (a : string) : a ^^ "" = a.
Proof. induction a as [|x a IH]; rewrite ?str_app_cons, ?str_app_nil_l; congruence. Qed.

Lemma str_app_length (a b : string) :
  String.length (a ^^ b) = String.length a + String.length b.
Proof. induction a as [|x a IH]; rewrite ?str_app_cons, ?str_app_nil_l; simpl; auto. Qed.

Lemma str_app_inv_l (p a b : string) : p ^^ a = p ^^ b -> a = b.
Proof.
  induction p as [|x p IH]; rewrite ?str_app_cons, ?str_app_nil_l; [done|].
  intros H. injection H. auto.
Qed.

#[export] Hint Rewrite str_app_assoc str_app_nil_r : app_rw.

(** [strip_prefix p s] removes the prefix [p] from [s] when [s] starts
    with it: the inverse of [p ^^ _] used by the decoders of the
    round-trip theorems. *)
Fixpoint strip_prefix (p s : string) : option string :=
  match p, s with
  | EmptyString, _ => Some s
  | String c p', String d s' => if decide (c = d) then strip_prefix p' s' else None
  | String _ _, EmptyString => None
  end.

Lemma strip_prefix_app (p s : string) : strip_prefix p (p ^^ s) = Some s.
Proof.
  induction p as [|c p IH]; rewrite ?str_app_cons, ?str_app_nil_l; [done|].
  cbn [strip_prefix]. rewrite decide_True; auto.
Qed.

Lemma strip_prefix_Some (p s r : string) :
  strip_prefix p s = Some r -> s = p ^^ r.
Proof.
  revert s. induction p as [|c p IH]; intros [|d s]; cbn [strip_prefix];
    rewrite ?str_app_nil_l; try congruence.
  destruct (decide (c = d)) as [->|]; [|congruence].
  intros H. by rewrite (IH _ H), str_app_cons.
Qed.

#[export] Hint Rewrite strip_prefix_app : app_rw.

(** A string is non-empty: Python's truth value of a [str]. *)
Definition nonempty (s : string) : bool :=
  match s with EmptyString => false | String _ _ => true end.

Lemma nonempty_false (s : string) : nonempty s = false <-> s = "".
Proof. destruct s; simpl; split; congruence. Qed.

Lemma nonempty_app_l (a b : string) : nonempty a = true -> nonempty (a ^^ b) = true.
Proof. by destruct a. Qed.

#[export] Hint Resolve nonempty_app_l : app.

(** ** Association lists in insertion order (Python dicts) *)

Section Assoc.
Context {V : Type}.

(** Lookup of a key, the first binding found. *)
Fixpoint assoc_lookup (k : string) (l : list (string * V)) : option V :=
  match l with
  | [] => None
  | (k', v) :: l' => if decide (k = k') then Some v else assoc_lookup k l'
  end.

(** [d[k] = v] on a dict kept in insertion order: an existing key keeps
    its position and takes the new value, a new key goes at the end. *)
Fixpoint assoc_set (k : string) (v : V) (l : list (string * V)) : list (string * V) :=
  match l with
  | [] => [(k, v)]
  | (k', v') :: l' =>
      if decide (k = k') then (k', v) :: l' else (k', v') :: assoc_set k v l'
  end.

Lemma assoc_set_keys_new k v (l : list (string * V)) :
  k ∉ (l.*1 : list string) -> (assoc_set k v l).*1 = (l.*1 ++ [k])%list.
Proof.
  induction l as [|[k' v'] l IH]; simpl; [done|].
  intros Hn. rewrite decide_False; [|set_solver]. simpl. f_equal. set_solver.
Qed.

Lemma assoc_set_new k v (l : list (string * V)) :
  k ∉ (l.*1 : list string) -> assoc_set k v l = (l ++ [(k, v)])%list.
Proof.
  induction l as [|[k' v'] l IH]; simpl; [done|].
  intros Hn. rewrite decide_False; [|set_solver]. f_equal. set_solver.
Qed.

Lemma assoc_lookup_set_eq k v (l : list (string * V)) :
  assoc_lookup k (assoc_set k v l) = Some v.
Proof.
  induction l as [|[k' v'] l IH]; simpl; [by rewrite decide_True|].
  case_decide; simpl; [by rewrite decide_True|]. by rewrite decide_False.
Qed.

Lemma assoc_lookup_set_ne k k2 v (l : list (string * V)) :
  k2 <> k -> assoc_lookup k2 (assoc_set k v l) = assoc_lookup k2 l.
Proof.
  intros Hne. induction l as [|[k' v'] l IH]; simpl.
  - by rewrite decide_False.
  - case_decide; subst; simpl; repeat case_decide; congruence.
Qed.

Lemma assoc_lookup_None k (l : list (string * V)) :
  assoc_lookup k l = None <-> k ∉ (l.*1 : list string).
Proof.
  induction l as [|[k' v'] l IH]; simpl; [set_solver|].
  case_decide; subst; [split; [done|set_solver]|]. rewrite IH. set_solver.
Qed.
End Assoc.

#[export] Hint Rewrite @assoc_lookup_set_eq : app_rw.

(** ** Tactics *)

(** [app_simpl] normalises strings and association lists with the
    rewriting database, then closes what is left by computation. *)
Ltac app_simpl := repeat (progress (simpl in *; autorewrite with app_rw in *)).

(** Case analysis on every [if decide _] and boolean test in the goal. *)
Ltac case_tests :=
  repeat match goal with
  | |- context [if decide ?P then _ else _] => destruct (decide P)
  | |- context [if ?b then _ else _] =>
      lazymatch b with decide _ => fail | _ => destruct b eqn:? end
  end.

Lemma nonempty_app_r (a b : string) : nonempty b = true -> nonempty (a ^^ b) = true.
Proof. destruct a; [done|by rewrite str_app_cons]. Qed.

#[export] Hint Resolve nonempty_app_r : app.

(** ** Finite ranges of integers

    A statement about every integer of a small range is proved by
    computing a boolean test on each of them ([forallb_zrange]). *)

Definition zrange (lo hi : Z) : list Z :=
  map (fun n => (lo + Z.of_nat n)%Z) (seq 0 (Z.to_nat (hi - lo + 1))).

Lemma elem_of_zrange (lo hi z : Z) : (lo <= z <= hi)%Z -> In z (zrange lo hi).
Proof.
  intros Hz. unfold zrange. apply in_map_iff.
  exists (Z.to_nat (z - lo)). split; [lia|]. apply in_seq. lia.
Qed.

Lemma forallb_zrange (f : Z -> bool) (lo hi z : Z) :
  forallb f (zrange lo hi) = true -> (lo <= z <= hi)%Z -> f z = true.
Proof.
  intros Hf Hz. rewrite forallb_forall in Hf. by apply Hf, elem_of_zrange.
Qed.
