(* ===== verification/PyExc.v ===== *)
(** * PyExc: Python exceptions and the [requests] exception hierarchy

    [src/app.py] catches exceptions by class: [make_request] has the
    handlers [except requests.exceptions.ConnectionError],
    [except requests.exceptions.Timeout], [except requests.RequestException]
    in that order, and [show_response] has [except Exception].  Which
    handler runs is decided by Python's subclass test on the class of the
    raised exception, so the hierarchy is data of the model.

    [ExcClass] lists the classes the program can meet: the builtins it
    raises itself ([AttributeError] from [.get] on a non-dict, [TypeError]
    from [len], [KeyError]) and the classes of [requests.exceptions]
    (requests 2.x) with their bases as declared there.  [bases] is the
    tuple [__bases__] of each class; [subclass] is its reflexive
    transitive closure and [issubclass] the decision procedure, proved
    sound and complete.  The hierarchy is library code, not the program's,
    and is stated here as the library declares it. *)

From Stdlib Require Import ZArith String.
From stdpp Require Import base list strings.
From S2P Require Import Prelude.
Import ListNotations.

Inductive ExcClass :=
  (* builtins *)
  | Exception | OSError | ValueError | TypeError | AttributeError | KeyError
  (* requests.exceptions *)
  | RequestException | InvalidJSONError | JSONDecodeError | HTTPError
  | ConnectionError | ProxyError | SSLError | Timeout | ConnectTimeout
  | ReadTimeout | URLRequired | TooManyRedirects | MissingSchema
  | InvalidSchema | InvalidURL | InvalidHeader | ChunkedEncodingError
  | ContentDecodingError | RetryError.

#[export] Instance ExcClass_eq_dec : EqDecision ExcClass.
Proof. solve_decision. Defined.

(** [C.__bases__] for each class, in declaration order. *)
Definition bases (c : ExcClass) : list ExcClass :=
  match c with
  | Exception => []
  | OSError | ValueError | TypeError | AttributeError | KeyError => [Exception]
  | RequestException => [OSError]
  | InvalidJSONError | HTTPError | ConnectionError | Timeout | URLRequired
  | TooManyRedirects | ChunkedEncodingError | ContentDecodingError
  | RetryError => [RequestException]
  | JSONDecodeError => [InvalidJSONError; ValueError]
  | ProxyError | SSLError => [ConnectionError]
  | ConnectTimeout => [ConnectionError; Timeout]
  | ReadTimeout => [Timeout]
  | MissingSchema | InvalidSchema | InvalidURL | InvalidHeader =>
      [RequestException; ValueError]
  end.

(** [subclass c d]: [issubclass(c, d)] holds in Python. *)
Inductive subclass : ExcClass -> ExcClass -> Prop :=
  | subclass_refl c : subclass c c
  | subclass_base c b d : b ∈ bases c -> subclass b d -> subclass c d.

(** The depth of a class in the hierarchy: strictly larger than the depth
    of each of its bases, which makes the search below terminate. *)
Definition depth (c : ExcClass) : nat :=
  match c with
  | Exception => 0
  | OSError | ValueError | TypeError | AttributeError | KeyError => 1
  | RequestException => 2
  | InvalidJSONError | HTTPError | ConnectionError | Timeout | URLRequired
  | TooManyRedirects | ChunkedEncodingError | ContentDecodingError
  | RetryError | MissingSchema | InvalidSchema | InvalidURL | InvalidHeader => 3
  | JSONDecodeError | ProxyError | SSLError | ConnectTimeout | ReadTimeout => 4
  end.

Lemma depth_bases c b : b ∈ bases c -> depth b < depth c.
Proof. rewrite list_elem_of_In. destruct c; simpl; intuition (subst; simpl; lia). Qed.

(** The search through [__bases__], with fuel. *)
Fixpoint issubclass_fuel (fuel : nat) (c d : ExcClass) : bool :=
  if decide (c = d) then true
  else match fuel with
       | O => false
       | S f => existsb (fun b => issubclass_fuel f b d) (bases c)
       end.

(** [issubclass(c, d)]: the search with [S (depth c)] steps of fuel. *)
Definition issubclass (c d : ExcClass) : bool := issubclass_fuel (S (depth c)) c d.

Lemma issubclass_fuel_sound fuel c d :
  issubclass_fuel fuel c d = true -> subclass c d.
Proof.
  revert c. induction fuel as [|f IH]; intros c; simpl;
    case_decide; subst; try constructor; [done|].
  rewrite existsb_exists. intros (b & Hb & Hs).
  apply subclass_base with b; [by apply list_elem_of_In|auto].
Qed.

Lemma issubclass_fuel_complete fuel c d :
  depth c < fuel -> subclass c d -> issubclass_fuel fuel c d = true.
Proof.
  intros Hf Hs. revert fuel Hf. induction Hs as [c|c b d Hb Hs IH]; intros fuel Hf.
  - destruct fuel; simpl; by rewrite decide_True.
  - destruct fuel as [|f]; [lia|]. simpl. case_decide; [done|].
    apply existsb_exists. exists b. split; [by apply list_elem_of_In|].
    apply IH. pose proof (depth_bases c b Hb). lia.
Qed.

Lemma issubclass_spec c d : issubclass c d = true <-> subclass c d.
Proof.
  split; [apply issubclass_fuel_sound|].
  intros Hs. apply issubclass_fuel_complete; [lia|done].
Qed.

#[export] Instance subclass_dec c d : Decision (subclass c d).
Proof.
  refine (cast_if (decide (issubclass c d = true)));
    by rewrite <-issubclass_spec.
Defined.

(** A raised exception: its class and the text [str(e)]. *)
Record PyExc := mkExc { exc_class : ExcClass; exc_msg : string }.

(** [except C:] catches [e] exactly when [isinstance(e, C)]. *)
Definition catches (c : ExcClass) (e : PyExc) : bool := issubclass (exc_class e) c.

Lemma catches_true (c : ExcClass) (e : PyExc) :
  subclass (exc_class e) c -> catches c e = true.
Proof. apply issubclass_spec. Qed.

Lemma catches_false (c : ExcClass) (e : PyExc) :
  ~ subclass (exc_class e) c -> catches c e = false.
Proof. unfold catches. rewrite <-issubclass_spec. by destruct (issubclass _ _). Qed.

(** Every class of [requests.exceptions] derives from [RequestException]. *)
Lemma subclass_trans c1 c2 c3 : subclass c1 c2 -> subclass c2 c3 -> subclass c1 c3.
Proof. induction 1; eauto using subclass. Qed.

#[export] Hint Resolve catches_true catches_false subclass_trans : app.

(** The two families [make_request] singles out are [RequestException]s. *)
Lemma ConnectionError_RequestException : subclass ConnectionError RequestException.
Proof. by apply issubclass_spec. Qed.

Lemma Timeout_RequestException : subclass Timeout RequestException.
Proof. by apply issubclass_spec. Qed.

(** ** The search through [__bases__] *)

(** The search decides Python's subclass test with any fuel above the
    depth of the class, so the fuel [S (depth c)] of [issubclass] is
    enough and more fuel never changes the answer. *)
Lemma issubclass_fuel_correct (fuel : nat) (c d : ExcClass) :
  depth c < fuel -> issubclass_fuel fuel c d = true <-> subclass c d.
Proof.
  intros Hf. split; [apply issubclass_fuel_sound|]. by apply issubclass_fuel_complete.
Qed.

