(* ===== verification/PyVal.v ===== *)
(** * PyVal: the Python values a JSON response decodes to

    [resp.json()] in [src/app.py] returns a Python value built by
    [json.loads]: [None], a [bool], an [int], a [float], a [str], a
    [list] or a [dict] with [str] keys.  The program then uses these
    operations on it, which this file defines:
    - the truth value ([if data:], [if data.get("Sun"):]): [truthy];
    - [len(data)] ("Found {len(data)} user(s)"): [py_len], which raises
      [TypeError] on a value without a length;
    - [d.get(k, default)] ([error_data.get('detail', 'Unknown error')],
      [data.get("Sun")], [data['Sun'].get('sign', 'N/A')]): [py_get],
      which raises [AttributeError] on a value that is not a dict;
    - [d[k]] ([data['Sun']]): [py_getitem];
    - [str(v)] inside f-strings: [py_str], with [repr] for containers.

    Strings are byte strings holding UTF-8; [len] of a [str] counts code
    points, that is the bytes that are not continuation bytes.  A float
    is carried by its [repr] text, which Python computes from the JSON
    literal (shortest round-trip form); the program only prints floats
    and tests their truth value, and a float is false exactly when its
    [repr] is [0.0] or [-0.0].  [repr] of a [str] keeps non-ASCII bytes
    as they are: Python would escape the non-printable code points above
    U+007F, which this model does not distinguish. *)

From Stdlib Require Import ZArith String Ascii DecimalString DecimalZ.
From stdpp Require Import base list strings.
From S2P Require Import Prelude PyExc.
Import ListNotations.

Inductive PyVal :=
  | PNone
  | PBool (b : bool)
  | PInt (z : Z)
  | PFloat (r : string)
  | PStr (s : string)
  | PList (l : list PyVal)
  | PDict (d : list (string * PyVal)).

(** A Python result: a value or a raised exception. *)
Definition PyResult (A : Type) := sum PyExc A.

(** ** [str] of an [int] *)

(** [str(z)]: decimal digits, [-] in front of a negative number. *)
Definition int_str (z : Z) : string := NilEmpty.string_of_int (Z.to_int z).

(** Reading the decimal text back gives the integer. *)
Definition int_of_str (s : string) : option Z :=
  Z.of_int <$> NilEmpty.int_of_string s.

Lemma int_of_str_int_str (z : Z) : int_of_str (int_str z) = Some z.
Proof. unfold int_of_str, int_str. rewrite NilEmpty.isi. simpl. by rewrite DecimalZ.of_to. Qed.

#[export] Hint Rewrite int_of_str_int_str : app_rw.

Lemma int_str_inj (z1 z2 : Z) : int_str z1 = int_str z2 -> z1 = z2.
Proof.
  intros H. apply (f_equal int_of_str) in H.
  rewrite !int_of_str_int_str in H. congruence.
Qed.

(** ** Truth value *)

Definition float_is_zero (r : string) : bool :=
  bool_decide (r = "0.0") || bool_decide (r = "-0.0").

Definition truthy (v : PyVal) : bool :=
  match v with
  | PNone => false
  | PBool b => b
  | PInt z => negb (Z.eqb z 0)
  | PFloat r => negb (float_is_zero r)
  | PStr s => nonempty s
  | PList l => negb (bool_decide (l = []))
  | PDict d => negb (bool_decide (d = []))
  end.

(** ** Type names, as [type(v).__name__] *)

Definition type_name (v : PyVal) : string :=
  match v with
  | PNone => "NoneType" | PBool _ => "bool" | PInt _ => "int"
  | PFloat _ => "float" | PStr _ => "str" | PList _ => "list"
  | PDict _ => "dict"
  end.

(** ** [len] *)

(** Number of code points of a UTF-8 byte string: the bytes outside
    [0x80 .. 0xBF]. *)
Fixpoint utf8_length (s : string) : nat :=
  match s with
  | EmptyString => 0
  | String c s' =>
      let n := nat_of_ascii c in
      (if (128 <=? n)%nat && (n <? 192)%nat then 0 else 1) + utf8_length s'
  end.

Definition py_len (v : PyVal) : PyResult Z :=
  match v with
  | PStr s => inr (Z.of_nat (utf8_length s))
  | PList l => inr (Z.of_nat (length l))
  | PDict d => inr (Z.of_nat (length d))
  | _ => inl (mkExc TypeError
               ("object of type '" ^^ type_name v ^^ "' has no len()"))
  end.

(** ** [.get] and subscripting *)

(** [v.get(k, default)]: only a dict has the method. *)
Definition py_get (v : PyVal) (k : string) (default : PyVal) : PyResult PyVal :=
  match v with
  | PDict d =>
      match assoc_lookup k d with Some x => inr x | None => inr default end
  | _ => inl (mkExc AttributeError
               ("'" ^^ type_name v ^^ "' object has no attribute 'get'"))
  end.

(** ** [repr] and [str] *)

Definition char_of (n : nat) : string := String (ascii_of_nat n) EmptyString.

Definition hex_digit (n : nat) : string :=
  char_of (if (n <? 10)%nat then 48 + n else 87 + n).

(** The quote [repr] puts around a string: a double quote when the
    string holds a single quote and no double quote, else a single quote. *)
Fixpoint has_char (c : ascii) (s : string) : bool :=
  match s with
  | EmptyString => false
  | String d s' => bool_decide (c = d) || has_char c s'
  end.

(** The double-quote character, code 34. *)
Definition dquote : ascii := ascii_of_nat 34.

Definition repr_quote (s : string) : ascii :=
  if has_char "'"%char s && negb (has_char dquote s)
  then dquote else "'"%char.

(** One byte of a string under [repr]: backslash and the chosen quote
    are escaped, [\t \n \r] by name, other control bytes in hex. *)
Definition repr_char (q : ascii) (c : ascii) : string :=
  let n := nat_of_ascii c in
  if bool_decide (c = q) || bool_decide (c = "\"%char) then String "\"%char (String c EmptyString)
  else if (n =? 9)%nat then "\t"
  else if (n =? 10)%nat then "\n"
  else if (n =? 13)%nat then "\r"
  else if (n <? 32)%nat || (n =? 127)%nat then "\x" ^^ hex_digit (n / 16) ^^ hex_digit (n mod 16)
  else String c EmptyString.

Fixpoint repr_chars (q : ascii) (s : string) : string :=
  match s with
  | EmptyString => ""
  | String c s' => repr_char q c ^^ repr_chars q s'
  end.

Definition str_repr (s : string) : string :=
  let q := repr_quote s in
  String q (repr_chars q s ^^ String q EmptyString).

Fixpoint join (sep : string) (l : list string) : string :=
  match l with
  | [] => ""
  | [x] => x
  | x :: l' => x ^^ sep ^^ join sep l'
  end.

Fixpoint py_repr (v : PyVal) : string :=
  match v with
  | PNone => "None"
  | PBool true => "True"
  | PBool false => "False"
  | PInt z => int_str z
  | PFloat r => r
  | PStr s => str_repr s
  | PList l => "[" ^^ join ", " (map py_repr l) ^^ "]"
  | PDict d =>
      "{" ^^ join ", " (map (fun kv => str_repr kv.1 ^^ ": " ^^ py_repr kv.2) d) ^^ "}"
  end.

(** [str(v)], what an f-string inserts. *)
Definition py_str (v : PyVal) : string :=
  match v with
  | PStr s => s
  | _ => py_repr v
  end.

(** [d[k]] with a [str] key. *)
Definition py_getitem (v : PyVal) (k : string) : PyResult PyVal :=
  match v with
  | PDict d =>
      match assoc_lookup k d with
      | Some x => inr x
      | None => inl (mkExc KeyError (str_repr k))
      end
  | PList _ => inl (mkExc TypeError "list indices must be integers or slices, not str")
  | PStr _ => inl (mkExc TypeError "string indices must be integers, not 'str'")
  | _ => inl (mkExc TypeError ("'" ^^ type_name v ^^ "' object is not subscriptable"))
  end.

(** ** The well-formed values [json.loads] returns *)

(** The keys of every dict are distinct: [json.loads] builds dicts by
    assignment, so a repeated key keeps one entry. *)
Fixpoint wf_val (v : PyVal) : Prop :=
  match v with
  | PList l => Forall id (map wf_val l)
  | PDict d => NoDup d.*1 /\ Forall id (map (fun kv => wf_val kv.2) d)
  | _ => True
  end.
