(* ===== verification/Pretty.v ===== *)
(** * Pretty: [pretty] and the JSON text [json.dumps] writes

    [pretty(obj)] (lines 43-48 of [src/app.py]) returns
    [json.dumps(obj, indent=2, ensure_ascii=False)], or [str(obj)] when
    [json.dumps] raises.  The JSON encoder is library code; it is stated
    here as CPython's [json.encoder] writes it with these arguments:
    - a string between double quotes, with [encode_basestring]'s escapes:
      a backslash before the double quote and the backslash, [\b \f \n
      \r \t] by name, the other bytes below [0x20] as [\u00XX] in
      lower-case hex, every other byte as it is
      ([ensure_ascii=False] keeps non-ASCII text: a UTF-8 byte of a
      multi-byte character is at least [0x80], so escaping bytes and
      escaping code points agree);
    - [null], [true], [false], [repr] of an int, and of a float with
      [NaN], [Infinity] and [-Infinity] for the special values;
    - a non-empty list or dict over several lines, each item on a line of
      its own indented by two spaces per level, items separated by [,],
      a key and its value by [: ], in insertion order; [[]] and [{}]
      when empty.
    [json.dumps] raises only on values JSON cannot write (other types,
    cycles); a value [resp.json()] returns has none, so on [PyVal] the
    [except] branch of [pretty] is never taken.

    The theorems: the string literal the encoder writes reads back, by
    the JSON grammar of strings, as the same string followed by the rest
    of the text ([encode_basestring_roundtrip]); text without control
    bytes, quotes or backslashes, non-ASCII text included, is written as
    it is ([encode_basestring_plain]).  [pretty] itself is never called
    by the page: [show_response] renders with [st.json]. *)

From Stdlib Require Import ZArith String Ascii.
From stdpp Require Import base list strings.
From S2P Require Import Prelude PyExc PyVal.
Import ListNotations.

(** ** The encoder *)

(** The backslash character, code 92. *)
Definition bslash : ascii := ascii_of_nat 92.

(** [ESCAPE_DCT[c]] for a byte [c] that [ESCAPE] matches, else [c]. *)
Definition json_escape_char (c : ascii) : string :=
  let n := nat_of_ascii c in
  if bool_decide (c = dquote) then String bslash (String dquote EmptyString)
  else if bool_decide (c = bslash) then String bslash (String bslash EmptyString)
  else if (n =? 8)%nat then String bslash "b"
  else if (n =? 12)%nat then String bslash "f"
  else if (n =? 10)%nat then String bslash "n"
  else if (n =? 13)%nat then String bslash "r"
  else if (n =? 9)%nat then String bslash "t"
  else if (n <? 32)%nat then String bslash "u00" ^^ hex_digit (n / 16) ^^ hex_digit (n mod 16)
  else String c EmptyString.

Fixpoint json_escape (s : string) : string :=
  match s with
  | EmptyString => ""
  | String c s' => json_escape_char c ^^ json_escape s'
  end.

(** [encode_basestring(s)]: [s] escaped, between double quotes. *)
Definition encode_basestring (s : string) : string :=
  String dquote (json_escape s ^^ String dquote EmptyString).

(** [floatstr]: [repr] of the float, with JSON's names for the special
    values ([allow_nan=True]). *)
Definition json_float (r : string) : string :=
  if bool_decide (r = "nan") then "NaN"
  else if bool_decide (r = "inf") then "Infinity"
  else if bool_decide (r = "-inf") then "-Infinity"
  else r.

Fixpoint spaces (n : nat) : string :=
  match n with O => "" | S n' => String " "%char (spaces n') end.

(** [newline_indent] at a level: a newline and two spaces per level. *)
Definition newline_indent (level : nat) : string := String "010"%char (spaces (2 * level)).

(** [_iterencode(o, level)] with [indent=2] and the separators [(',', ': ')]. *)
Fixpoint json_dumps_at (level : nat) (v : PyVal) : string :=
  match v with
  | PNone => "null"
  | PBool true => "true"
  | PBool false => "false"
  | PInt z => int_str z
  | PFloat r => json_float r
  | PStr s => encode_basestring s
  | PList [] => "[]"
  | PList l =>
      "[" ^^ newline_indent (S level) ^^
      join ("," ^^ newline_indent (S level)) (map (json_dumps_at (S level)) l) ^^
      newline_indent level ^^ "]"
  | PDict [] => "{}"
  | PDict d =>
      "{" ^^ newline_indent (S level) ^^
      join ("," ^^ newline_indent (S level))
           (map (fun kv => encode_basestring kv.1 ^^ ": " ^^ json_dumps_at (S level) kv.2) d) ^^
      newline_indent level ^^ "}"
  end.

(** [json.dumps(obj, indent=2, ensure_ascii=False)]: it raises only on
    values outside JSON, which [PyVal] does not have. *)
Definition json_dumps (obj : PyVal) : PyResult string := inr (json_dumps_at 0 obj).

(** [pretty(obj)], lines 43-48. *)
Definition pretty (obj : PyVal) : string :=
  match json_dumps obj with
  | inr s => s
  | inl _ => py_str obj
  end.

(** ** The JSON grammar of strings, as a reader *)

(** The value of a hexadecimal digit. *)
Definition hex_val (c : ascii) : option N :=
  let n := N_of_ascii c in
  if (48 <=? n)%N && (n <=? 57)%N then Some (n - 48)%N
  else if (97 <=? n)%N && (n <=? 102)%N then Some (n - 87)%N
  else if (65 <=? n)%N && (n <=? 70)%N then Some (n - 55)%N
  else None.

Definition byte_of (n : N) : string := String (ascii_of_N n) EmptyString.

(** The UTF-8 bytes of a code point of the Basic Multilingual Plane;
    surrogates, which only pairs of escapes denote, are not read. *)
Definition utf8_encode (v : N) : option string :=
  (if v <? 128 then Some (byte_of v)
   else if v <? 2048 then Some (byte_of (192 + v / 64) ^^ byte_of (128 + v mod 64))
   else if (55296 <=? v) && (v <? 57344) then None
   else Some (byte_of (224 + v / 4096) ^^ byte_of (128 + (v / 64) mod 64) ^^
              byte_of (128 + v mod 64)))%N.

(** [p] in front of the text read so far. *)
Definition push_str (p : string) (o : option (string * string)) : option (string * string) :=
  '(u, r) ← o; Some (p ^^ u, r).

(** The characters of a string literal after its opening quote, up to
    and without its closing quote; the value and the text after it. *)
Fixpoint read_string_body (s : string) : option (string * string) :=
  match s with
  | EmptyString => None
  | String c s' =>
      if bool_decide (c = dquote) then Some (EmptyString, s')
      else if bool_decide (c = bslash) then
        match s' with
        | EmptyString => None
        | String e s'' =>
            let n := nat_of_ascii e in
            if bool_decide (e = dquote) || bool_decide (e = bslash) || (n =? 47)%nat
            then push_str (String e EmptyString) (read_string_body s'')
            else if (n =? 98)%nat then push_str (char_of 8) (read_string_body s'')
            else if (n =? 102)%nat then push_str (char_of 12) (read_string_body s'')
            else if (n =? 110)%nat then push_str (char_of 10) (read_string_body s'')
            else if (n =? 114)%nat then push_str (char_of 13) (read_string_body s'')
            else if (n =? 116)%nat then push_str (char_of 9) (read_string_body s'')
            else if (n =? 117)%nat then
              match s'' with
              | String h1 (String h2 (String h3 (String h4 s3))) =>
                  match hex_val h1, hex_val h2, hex_val h3, hex_val h4 with
                  | Some a, Some b, Some c, Some d =>
                      match utf8_encode (((a * 16 + b) * 16 + c) * 16 + d)%N with
                      | Some p => push_str p (read_string_body s3)
                      | None => None
                      end
                  | _, _, _, _ => None
                  end
              | _ => None
              end
            else None
        end
      else if (nat_of_ascii c <? 32)%nat then None
      else push_str (String c EmptyString) (read_string_body s')
  end.

(** A string literal at the front of [s]. *)
Definition read_json_string (s : string) : option (string * string) :=
  match s with
  | String c s' => if bool_decide (c = dquote) then read_string_body s' else None
  | EmptyString => None
  end.

(** ** Properties of the string encoder *)

(** Each byte's escape reads back as the byte, whatever follows: one case
    per byte. *)
Lemma read_json_escape_char (c : ascii) (t : string) :
  read_string_body (json_escape_char c ^^ t) = push_str (String c EmptyString) (read_string_body t).
Proof. destruct c as [[][][][][][][][]]; reflexivity. Qed.

Lemma read_json_escape (s rest : string) :
  read_string_body (json_escape s ^^ String dquote rest) = Some (s, rest).
Proof.
  induction s as [|c s IH]; [reflexivity|].
  change (json_escape (String c s)) with (json_escape_char c ^^ json_escape s).
  rewrite str_app_assoc, read_json_escape_char, IH. reflexivity.
Qed.

Lemma encode_basestring_app (s rest : string) :
  encode_basestring s ^^ rest = String dquote (json_escape s ^^ String dquote rest).
Proof.
  unfold encode_basestring. by rewrite str_app_cons, str_app_assoc, str_app_cons, str_app_nil_l.
Qed.

(** The literal [encode_basestring] writes reads back as the same
    string, and the reading stops right after it. *)
Theorem encode_basestring_roundtrip (s rest : string) :
  read_json_string (encode_basestring s ^^ rest) = Some (s, rest).
Proof. rewrite encode_basestring_app. simpl. apply read_json_escape. Qed.

(** A byte [encode_basestring] writes as it is. *)
Definition plain_char (c : ascii) : bool :=
  negb (bool_decide (c = dquote)) && negb (bool_decide (c = bslash)) &&
  (32 <=? nat_of_ascii c)%nat.

Fixpoint plain (s : string) : bool :=
  match s with
  | EmptyString => true
  | String c s' => plain_char c && plain s'
  end.

Lemma json_escape_plain_char (c : ascii) :
  plain_char c = true -> json_escape_char c = String c EmptyString.
Proof. destruct c as [[][][][][][][][]]; vm_compute; congruence. Qed.

(** C24: [ensure_ascii=False]: a text without control bytes, double quotes or
    backslashes, non-ASCII characters included, is written between the
    quotes exactly as it is. *)
Theorem encode_basestring_plain (s : string) :
  plain s = true -> encode_basestring s = String dquote (s ^^ String dquote EmptyString).
Proof.
  intros Hs. unfold encode_basestring. f_equal. f_equal.
  induction s as [|c s IH]; [reflexivity|].
  simpl in Hs. apply andb_true_iff in Hs as [Hc Hs].
  change (json_escape (String c s)) with (json_escape_char c ^^ json_escape s).
  rewrite json_escape_plain_char, IH by done. by rewrite str_app_cons, str_app_nil_l.
Qed.

(** ** The theorems at concrete inputs *)

(** A name with a non-ASCII letter (two UTF-8 bytes) is written as it
    is. *)
Lemma encode_basestring_plain_witness :
  plain "Zoë Brussels" = true /\
  encode_basestring "Zoë Brussels" = String dquote ("Zoë Brussels" ^^ String dquote EmptyString).
Proof.
  assert (plain "Zoë Brussels" = true) as H by reflexivity.
  split; [exact H|exact (encode_basestring_plain _ H)].
Defined.
