(* ===== verification/JsonRead.v ===== *)
(** * JsonRead: reading back the text [pretty] writes

    A reference reader of JSON text ([parse_value], [parse_json]): the
    grammar of RFC 8259 for values, with whitespace between tokens, the
    strings of [Pretty.read_string_body], the names [NaN], [Infinity] and
    [-Infinity] that Python's [json] writes and reads, and a number read
    as its maximal token of number characters with a digit, an [int]
    when it has no fraction or exponent and a float carrying its text
    otherwise.  As in [json.scanner], a string, an array and an object
    are told by their first character, and a number is tried before the
    names.  The reader recurses with
    fuel; [parse_json] gives it one step per character of its input,
    which [size_le_length] proves is enough for a text [json.dumps]
    wrote.

    [pretty_roundtrip]: the text [pretty] writes for a value with the
    [repr] of a float in each float ([json_ok]) reads back as the same
    value, for every value: the indented layout of [json.dumps] is JSON,
    and nothing is lost or reordered. *)

From Stdlib Require Import ZArith String Ascii DecimalString DecimalPos.
From stdpp Require Import base list strings.
From S2P Require Import Prelude PyExc PyVal Pretty.
Import ListNotations.

(** ** The reader *)

Definition is_ws (c : ascii) : bool :=
  let n := nat_of_ascii c in (n =? 32)%nat || (n =? 10)%nat || (n =? 13)%nat || (n =? 9)%nat.

Fixpoint skip_ws (s : string) : string :=
  match s with
  | String c s' => if is_ws c then skip_ws s' else s
  | EmptyString => EmptyString
  end.

Definition is_digit (c : ascii) : bool :=
  let n := nat_of_ascii c in (48 <=? n)%nat && (n <=? 57)%nat.

(** The characters of a number token. *)
Definition num_char (c : ascii) : bool :=
  is_digit c || has_char c "+-.eE".

Fixpoint read_token (s : string) : string * string :=
  match s with
  | String c s' =>
      if num_char c then let '(t, r) := read_token s' in (String c t, r) else (EmptyString, s)
  | EmptyString => (EmptyString, EmptyString)
  end.

Fixpoint all_chars (p : ascii -> bool) (s : string) : bool :=
  match s with
  | EmptyString => true
  | String c s' => p c && all_chars p s'
  end.

Fixpoint any_char (p : ascii -> bool) (s : string) : bool :=
  match s with
  | EmptyString => false
  | String c s' => p c || any_char p s'
  end.

(** A number token, with a digit: a float when it has a fraction or an
    exponent. *)
Definition number_of (t : string) : option PyVal :=
  if negb (any_char is_digit t) then None
  else if has_char "."%char t || has_char "e"%char t || has_char "E"%char t then Some (PFloat t)
  else PInt <$> int_of_str t.

(** A keyword at the front of [s]. *)
Definition keyword (s : string) : option (PyVal * string) :=
  match strip_prefix "null" s with Some r => Some (PNone, r) | None =>
  match strip_prefix "true" s with Some r => Some (PBool true, r) | None =>
  match strip_prefix "false" s with Some r => Some (PBool false, r) | None =>
  match strip_prefix "NaN" s with Some r => Some (PFloat "nan", r) | None =>
  match strip_prefix "Infinity" s with Some r => Some (PFloat "inf", r) | None =>
  match strip_prefix "-Infinity" s with Some r => Some (PFloat "-inf", r) | None => None
  end end end end end end.

(** [c] after whitespace at the front of [s]: the text after it. *)
Definition punct (c : ascii) (s : string) : option string :=
  match skip_ws s with
  | String d r => if bool_decide (c = d) then Some r else None
  | EmptyString => None
  end.

Fixpoint parse_value (fuel : nat) (s : string) : option (PyVal * string) :=
  match fuel with
  | O => None
  | S f =>
      let s := skip_ws s in
      match s with
      | EmptyString => None
      | String c s' =>
          if bool_decide (c = dquote) then '(t, r) ← read_string_body s'; Some (PStr t, r)
          else if bool_decide (c = "["%char) then
            match punct "]" s' with
            | Some r => Some (PList [], r)
            | None => '(l, r) ← parse_elems f s'; Some (PList l, r)
            end
          else if bool_decide (c = "{"%char) then
            match punct "}" s' with
            | Some r => Some (PDict [], r)
            | None => '(d, r) ← parse_members f s'; Some (PDict d, r)
            end
          else
            let '(t, r) := read_token s in
            match number_of t with
            | Some v => Some (v, r)
            | None => keyword s
            end
      end
  end
(** The items of a non-empty array up to its closing bracket. *)
with parse_elems (fuel : nat) (s : string) : option (list PyVal * string) :=
  match fuel with
  | O => None
  | S f =>
      '(v, r) ← parse_value f s;
      match punct ","%char r with
      | Some r' => '(l, r'') ← parse_elems f r'; Some (v :: l, r'')
      | None => r' ← punct "]"%char r; Some ([v], r')
      end
  end
(** The members of a non-empty object up to its closing brace. *)
with parse_members (fuel : nat) (s : string) : option (list (string * PyVal) * string) :=
  match fuel with
  | O => None
  | S f =>
      s1 ← punct dquote s;
      '(k, r) ← read_string_body s1;
      r1 ← punct ":"%char r;
      '(v, r2) ← parse_value f r1;
      match punct ","%char r2 with
      | Some r3 => '(d, r4) ← parse_members f r3; Some ((k, v) :: d, r4)
      | None => r3 ← punct "}"%char r2; Some ([(k, v)], r3)
      end
  end.

(** A whole text: one value and whitespace, with one step of fuel per
    character. *)
Definition parse_json (s : string) : option PyVal :=
  match parse_value (S (String.length s)) s with
  | Some (v, r) => if bool_decide (skip_ws r = EmptyString) then Some v else None
  | None => None
  end.

(** ** The values [json.dumps] can write back *)

(** The [repr] of a float: [nan], [inf], [-inf], or a token of number
    characters with a digit and a fraction or an exponent. *)
Definition float_repr_ok (r : string) : bool :=
  bool_decide (r = "nan") || bool_decide (r = "inf") || bool_decide (r = "-inf") ||
  (all_chars num_char r && any_char is_digit r &&
   (has_char "."%char r || has_char "e"%char r || has_char "E"%char r)).

Fixpoint json_ok (v : PyVal) : bool :=
  match v with
  | PFloat r => float_repr_ok r
  | PList l => forallb json_ok l
  | PDict d => forallb (fun kv => json_ok kv.2) d
  | _ => true
  end.

(** The fuel a value needs: one step per value and per item. *)
Fixpoint size (v : PyVal) : nat :=
  match v with
  | PList l => S (list_sum (map (fun x => S (size x)) l))
  | PDict d => S (list_sum (map (fun kv => S (size kv.2)) d))
  | _ => 1
  end.

(** Induction on values through their lists. *)
Section PyValInd.
Variable P : PyVal -> Prop.
Hypothesis HNone : P PNone.
Hypothesis HBool : forall b, P (PBool b).
Hypothesis HInt : forall z, P (PInt z).
Hypothesis HFloat : forall r, P (PFloat r).
Hypothesis HStr : forall s, P (PStr s).
Hypothesis HList : forall l, Forall P l -> P (PList l).
Hypothesis HDict : forall d, Forall (fun kv => P kv.2) d -> P (PDict d).

Fixpoint PyVal_ind' (v : PyVal) : P v :=
  match v with
  | PNone => HNone
  | PBool b => HBool b
  | PInt z => HInt z
  | PFloat r => HFloat r
  | PStr s => HStr s
  | PList l =>
      HList l ((fix go (l : list PyVal) : Forall P l :=
                  match l with
                  | [] => Forall_nil_2 _
                  | x :: l' => Forall_cons_2 _ x l' (PyVal_ind' x) (go l')
                  end) l)
  | PDict d =>
      HDict d ((fix go (d : list (string * PyVal)) : Forall (fun kv => P kv.2) d :=
                  match d with
                  | [] => Forall_nil_2 _
                  | (k, x) :: d' => Forall_cons_2 (fun kv => P kv.2) (k, x) d' (PyVal_ind' x) (go d')
                  end) d)
  end.
End PyValInd.

(** ** Characters and tokens *)

Lemma skip_ws_app (w s : string) : all_chars is_ws w = true -> skip_ws (w ^^ s) = skip_ws s.
Proof.
  induction w as [|c w IH]; intros H; [by rewrite str_app_nil_l|].
  simpl in H. apply andb_true_iff in H as [Hc Hw]. rewrite str_app_cons. cbn [skip_ws].
  rewrite Hc. auto.
Qed.

Lemma skip_ws_idem (s : string) : skip_ws (skip_ws s) = skip_ws s.
Proof. induction s as [|c s IH]; simpl; [done|]. destruct (is_ws c) eqn:Hc; simpl; rewrite ?Hc; done. Qed.

Lemma skip_ws_head (c : ascii) (t s : string) :
  is_ws c = false -> skip_ws (String c t ^^ s) = String c (t ^^ s).
Proof. intros Hc. rewrite str_app_cons. simpl. by rewrite Hc. Qed.

Lemma spaces_ws n : all_chars is_ws (spaces n) = true.
Proof. by induction n. Qed.

Lemma newline_indent_ws n : all_chars is_ws (newline_indent n) = true.
Proof. apply spaces_ws. Qed.

Lemma parse_value_skip n s : parse_value n (skip_ws s) = parse_value n s.
Proof. destruct n; [done|]. cbn [parse_value]. by rewrite skip_ws_idem. Qed.

(** Whitespace in front of a value does not change its reading. *)
Lemma parse_value_ws n (w s : string) :
  all_chars is_ws w = true -> parse_value n (w ^^ s) = parse_value n s.
Proof. intros Hw. by rewrite <-parse_value_skip, skip_ws_app, parse_value_skip. Qed.

(** [rest] does not continue a number token. *)
Definition stops (rest : string) : bool :=
  match rest with String c _ => negb (num_char c) | EmptyString => true end.

Lemma read_token_app (t rest : string) :
  all_chars num_char t = true -> stops rest = true -> read_token (t ^^ rest) = (t, rest).
Proof.
  induction t as [|c t IH]; intros Ht Hr.
  - rewrite str_app_nil_l. destruct rest as [|c r]; simpl in *; [done|].
    apply negb_true_iff in Hr. by rewrite Hr.
  - simpl in Ht. apply andb_true_iff in Ht as [Hc Ht]. rewrite str_app_cons. cbn [read_token].
    rewrite Hc, IH; done.
Qed.

(** The first character of a number: not whitespace, and not the start
    of a string, an array or an object. *)
Lemma num_char_head (c : ascii) :
  num_char c = true ->
  is_ws c = false /\ c <> dquote /\ c <> "["%char /\ c <> "{"%char /\
  c <> "]"%char /\ c <> "}"%char.
Proof. destruct c as [[][][][][][][][]]; vm_compute; intuition congruence. Qed.

Lemma all_chars_impl (p q : ascii -> bool) (s : string) :
  (forall c, p c = true -> q c = true) -> all_chars p s = true -> all_chars q s = true.
Proof.
  intros Hpq. induction s as [|c s IH]; simpl; [done|].
  rewrite !andb_true_iff. intros [Hc Hs]. auto.
Qed.

Lemma all_chars_has (p : ascii -> bool) (c : ascii) (s : string) :
  all_chars p s = true -> p c = false -> has_char c s = false.
Proof.
  intros Hs Hc. induction s as [|d s IH]; simpl in *; [done|].
  apply andb_true_iff in Hs as [Hd Hs]. rewrite IH by done.
  case_bool_decide; subst; [congruence|done].
Qed.

Lemma all_chars_any (p : ascii -> bool) (s : string) :
  s <> EmptyString -> all_chars p s = true -> any_char p s = true.
Proof. destruct s as [|c s]; simpl; [done|]. rewrite andb_true_iff. by intros _ [-> _]. Qed.

(** A number token followed by a text that does not continue it. *)
Lemma parse_number (n : nat) (t rest : string) (v : PyVal) :
  all_chars num_char t = true -> t <> EmptyString -> stops rest = true ->
  number_of t = Some v -> parse_value (S n) (t ^^ rest) = Some (v, rest).
Proof.
  intros Ht Hne Hr Hv. destruct t as [|c t']; [done|].
  pose proof Ht as Hc. simpl in Hc. apply andb_true_iff in Hc as [Hc _].
  destruct (num_char_head c Hc) as (Hws & Hq & Hb & Hbr & _ & _).
  cbn [parse_value]. rewrite skip_ws_head by done.
  rewrite !bool_decide_false by done. rewrite <-str_app_cons, read_token_app by done.
  by rewrite Hv.
Qed.

Lemma skip_ws_cons (c : ascii) (t : string) : is_ws c = false -> skip_ws (String c t) = String c t.
Proof. intros Hc. simpl. by rewrite Hc. Qed.

Lemma punct_cons (c d : ascii) (t : string) :
  is_ws d = false -> punct c (String d t) = if bool_decide (c = d) then Some t else None.
Proof. intros Hd. unfold punct. by rewrite skip_ws_cons. Qed.

Lemma punct_ws (c : ascii) (w s : string) : all_chars is_ws w = true -> punct c (w ^^ s) = punct c s.
Proof. intros Hw. unfold punct. by rewrite skip_ws_app. Qed.

(** ** The texts of the scalars *)

Lemma string_of_uint_digits (u : Decimal.uint) : all_chars is_digit (NilEmpty.string_of_uint u) = true.
Proof. induction u; simpl; auto. Qed.

Lemma string_of_uint_nonempty (u : Decimal.uint) :
  u <> Decimal.Nil -> NilEmpty.string_of_uint u <> EmptyString.
Proof. destruct u; simpl; congruence. Qed.

(** [str(z)]: digits, after a minus sign for a negative [z]. *)
Lemma int_str_digits (z : Z) :
  exists d, (int_str z = d \/ int_str z = String "-" d) /\
            all_chars is_digit d = true /\ d <> EmptyString.
Proof.
  unfold int_str. destruct z as [|p|p]; simpl.
  - exists "0". auto.
  - eexists. split; [left; reflexivity|]. split; [apply string_of_uint_digits|].
    apply string_of_uint_nonempty, Unsigned.to_uint_nonnil.
  - eexists. split; [right; reflexivity|]. split; [apply string_of_uint_digits|].
    apply string_of_uint_nonempty, Unsigned.to_uint_nonnil.
Qed.

Lemma digit_num_char (c : ascii) : is_digit c = true -> num_char c = true.
Proof. unfold num_char. by intros ->. Qed.

Lemma int_str_token (z : Z) :
  all_chars num_char (int_str z) = true /\ int_str z <> EmptyString /\
  number_of (int_str z) = Some (PInt z).
Proof.
  destruct (int_str_digits z) as (d & Hz & Hd & Hne).
  assert (all_chars num_char d = true) as Hn by (eapply all_chars_impl; [apply digit_num_char|done]).
  assert (any_char is_digit (int_str z) = true /\ has_char "."%char (int_str z) = false /\
          has_char "e"%char (int_str z) = false /\ has_char "E"%char (int_str z) = false)
    as (Ha & H1 & H2 & H3).
  { destruct Hz as [-> | ->]; simpl; rewrite all_chars_any, !(all_chars_has is_digit) by done;
      repeat split. }
  split; [|split].
  - destruct Hz as [-> | ->]; [done|]. simpl. by rewrite Hn.
  - destruct Hz as [-> | ->]; [done|discriminate].
  - unfold number_of. by rewrite Ha, H1, H2, H3, int_of_str_int_str.
Qed.

(** The [repr] of a finite float is written as it is and read back as a
    float. *)
Lemma float_token (r : string) :
  all_chars num_char r && any_char is_digit r &&
  (has_char "."%char r || has_char "e"%char r || has_char "E"%char r) = true ->
  json_float r = r /\ r <> EmptyString /\ number_of r = Some (PFloat r).
Proof.
  intros H. pose proof H as H'. apply andb_true_iff in H' as [H' Hm].
  apply andb_true_iff in H' as [Hn Ha]. split; [|split].
  - unfold json_float. repeat (case_bool_decide; [subst; vm_compute in Hn; discriminate|]).
    done.
  - by intros ->.
  - unfold number_of. by rewrite Ha, Hm.
Qed.

(** The first character of the text of a value: not whitespace, and
    not a closing bracket or brace. *)
Lemma dump_head (lv : nat) (v : PyVal) :
  json_ok v = true ->
  exists c t, json_dumps_at lv v = String c t /\ is_ws c = false /\
              c <> "]"%char /\ c <> "}"%char.
Proof.
  intros Hv. destruct v as [|[]|z|r|s|[|x l]|[|kv d]]; simpl in Hv;
    try (eexists _, _; split; [reflexivity|]; vm_compute; intuition congruence).
  - destruct (int_str_token z) as (Hn & Hne & _). cbn [json_dumps_at].
    destruct (int_str z) as [|c t]; [done|]. simpl in Hn. apply andb_true_iff in Hn as [Hc _].
    destruct (num_char_head c Hc) as (? & _ & _ & _ & ? & ?). by exists c, t.
  - unfold float_repr_ok in Hv. cbn [json_dumps_at].
    repeat (case_bool_decide; [subst; eexists _, _; split; [reflexivity|];
                               vm_compute; intuition congruence|]).
    simpl in Hv. destruct (float_token r Hv) as (-> & Hne & _).
    destruct r as [|c t]; [done|]. simpl in Hv. apply andb_true_iff in Hv as [Hv _].
    apply andb_true_iff in Hv as [Hv _]. apply andb_true_iff in Hv as [Hc _].
    destruct (num_char_head c Hc) as (? & _ & _ & _ & ? & ?). by exists c, t.
Qed.

Lemma parse_string (n : nat) (s rest : string) :
  parse_value (S n) (encode_basestring s ^^ rest) = Some (PStr s, rest).
Proof.
  rewrite encode_basestring_app. cbn [parse_value]. rewrite skip_ws_cons by reflexivity.
  cbv beta iota zeta. rewrite bool_decide_true by done. by rewrite read_json_escape.
Qed.

(** ** The texts of arrays and objects *)

Lemma punct_comma (x : string) : punct ","%char ("," ^^ x) = Some x.
Proof. reflexivity. Qed.

Lemma punct_colon (x : string) : punct ":"%char (": " ^^ x) = Some (" " ^^ x).
Proof. reflexivity. Qed.

Lemma parse_value_bracket (f : nat) (x : string) :
  parse_value (S f) ("[" ^^ x) =
  match punct "]" x with
  | Some r => Some (PList [], r)
  | None => '(l, r) ← parse_elems f x; Some (PList l, r)
  end.
Proof. reflexivity. Qed.

Lemma parse_value_brace (f : nat) (x : string) :
  parse_value (S f) ("{" ^^ x) =
  match punct "}" x with
  | Some r => Some (PDict [], r)
  | None => '(d, r) ← parse_members f x; Some (PDict d, r)
  end.
Proof. reflexivity. Qed.

(** The text after a closing bracket or brace and a newline: it stops a
    number and closes the array or the object. *)
Lemma close_stops (lv : nat) (c : string) (rest : string) : stops (newline_indent lv ^^ c ^^ rest) = true.
Proof. reflexivity. Qed.

Lemma punct_close (lv : nat) (c : ascii) (rest : string) :
  is_ws c = false ->
  punct c (newline_indent lv ^^ String c EmptyString ^^ rest) = Some rest /\
  (c <> ","%char -> punct ","%char (newline_indent lv ^^ String c EmptyString ^^ rest) = None).
Proof.
  intros Hc. split; [|intros Hne]; rewrite punct_ws by apply newline_indent_ws;
    rewrite str_app_cons, str_app_nil_l, punct_cons by done;
    [by rewrite bool_decide_true|by rewrite bool_decide_false by congruence].
Qed.

Lemma join_map_one {A} (sep : string) (F : A -> string) (a : A) : join sep (map F [a]) = F a.
Proof. reflexivity. Qed.

Lemma join_map_cons2 {A} (sep : string) (F : A -> string) (a b : A) (l : list A) :
  join sep (map F (a :: b :: l)) = F a ^^ sep ^^ join sep (map F (b :: l)).
Proof. reflexivity. Qed.

Lemma join_cons_app (sep a : string) (l : list string) (r : string) :
  exists r', join sep (a :: l) ^^ r = a ^^ r'.
Proof. destruct l; simpl; [by exists r|]. exists (sep ^^ join sep (s :: l) ^^ r). by rewrite !str_app_assoc. Qed.

(** Whether a value reads back from its text, at every level and before
    every text that stops it, with enough fuel. *)
Definition dump_ok (v : PyVal) : Prop :=
  forall lv n rest, size v <= n -> stops rest = true ->
  parse_value n (json_dumps_at lv v ^^ rest) = Some (v, rest).

Lemma punct_dump (lv : nat) (x : PyVal) (c : ascii) (r : string) :
  json_ok x = true -> c = "]"%char \/ c = "}"%char -> punct c (json_dumps_at lv x ^^ r) = None.
Proof.
  intros Hx Hc. destruct (dump_head lv x Hx) as (d & t & -> & Hws & Hb & Hbr).
  rewrite str_app_cons, punct_cons by done. rewrite bool_decide_false; [done|].
  destruct Hc; subst; congruence.
Qed.

Lemma parse_elems_dump (lv : nat) (l : list PyVal) (rest : string) (f : nat) :
  l <> [] -> Forall dump_ok l -> list_sum (map (fun x => S (size x)) l) <= f ->
  parse_elems f (newline_indent (S lv) ^^
                 join ("," ^^ newline_indent (S lv)) (map (json_dumps_at (S lv)) l) ^^
                 newline_indent lv ^^ "]" ^^ rest) = Some (l, rest).
Proof.
  revert f. induction l as [|x l IH]; intros f Hne Hall Hf; [done|].
  apply Forall_cons in Hall as [Hx Hl].
  destruct f as [|g]; [simpl in Hf; lia|]. cbn [parse_elems].
  rewrite parse_value_ws by apply newline_indent_ws.
  destruct (punct_close lv "]" rest) as [Hclose Hcomma]; [done|].
  destruct l as [|y l].
  - rewrite join_map_one, Hx; [|simpl in Hf; lia|apply close_stops].
    cbn -[punct parse_elems join map]. rewrite Hcomma by done. cbn -[punct]. by rewrite Hclose.
  - rewrite join_map_cons2, !str_app_assoc, Hx; [|simpl in Hf; lia|reflexivity].
    cbn -[punct parse_elems join map]. rewrite punct_comma.
    rewrite (IH g); [done|done|done|simpl in *; lia].
Qed.

Lemma parse_members_dump (lv : nat) (d : list (string * PyVal)) (rest : string) (f : nat) :
  d <> [] -> Forall (fun kv => dump_ok kv.2) d -> list_sum (map (fun kv => S (size kv.2)) d) <= f ->
  parse_members f (newline_indent (S lv) ^^
                   join ("," ^^ newline_indent (S lv))
                        (map (fun kv => encode_basestring kv.1 ^^ ": " ^^ json_dumps_at (S lv) kv.2) d) ^^
                   newline_indent lv ^^ "}" ^^ rest) = Some (d, rest).
Proof.
  revert f. induction d as [|[k x] d IH]; intros f Hne Hall Hf; [done|].
  apply Forall_cons in Hall as [Hx Hd]. simpl in Hx.
  destruct f as [|g]; [simpl in Hf; lia|]. cbn [parse_members].
  destruct (punct_close lv "}" rest) as [Hclose Hcomma]; [done|].
  destruct d as [|kv d].
  - rewrite join_map_one. cbv beta. simpl fst. simpl snd.
    rewrite !str_app_assoc, punct_ws, encode_basestring_app by apply newline_indent_ws.
    rewrite punct_cons, bool_decide_true by done. cbn -[read_string_body punct parse_value join map].
    rewrite read_json_escape. cbn -[punct parse_value join map]. rewrite punct_colon.
    cbn -[punct parse_value join map]. rewrite parse_value_ws by reflexivity.
    rewrite Hx; [|simpl in Hf; lia|apply close_stops].
    cbn -[punct parse_members join map]. rewrite Hcomma by done. cbn -[punct]. by rewrite Hclose.
  - rewrite join_map_cons2. cbv beta. simpl fst. simpl snd.
    rewrite !str_app_assoc, punct_ws, encode_basestring_app by apply newline_indent_ws.
    rewrite punct_cons, bool_decide_true by done. cbn -[read_string_body punct parse_value join map].
    rewrite read_json_escape. cbn -[punct parse_value join map]. rewrite punct_colon.
    cbn -[punct parse_value join map]. rewrite parse_value_ws by reflexivity.
    rewrite Hx; [|simpl in Hf; lia|reflexivity].
    cbn -[punct parse_members join map]. rewrite punct_comma.
    rewrite (IH g); [done|done|done|simpl in *; lia].
Qed.

Lemma Forall_impl_ok {A} (P : A -> Prop) (f : A -> bool) (l : list A) :
  Forall (fun x => f x = true -> P x) l -> forallb f l = true -> Forall P l.
Proof.
  induction 1 as [|x l Hx _ IH]; simpl; [constructor|].
  rewrite andb_true_iff. intros [H1 H2]. constructor; auto.
Qed.

(** Every value [json.dumps] writes reads back, by induction through
    nested lists and objects. *)
Lemma dump_parse (v : PyVal) : json_ok v = true -> dump_ok v.
Proof.
  induction v as [|b|z|r|s|l IH|d IH] using PyVal_ind'; intros Hok lv n rest Hn Hr;
    (destruct n as [|f]; [simpl in Hn; lia|]).
  - reflexivity.
  - by destruct b.
  - destruct (int_str_token z) as (Ht & Hne & Hv). by apply parse_number.
  - simpl in Hok. unfold float_repr_ok in Hok.
    repeat (case_bool_decide; [subst; reflexivity|]). simpl in Hok.
    destruct (float_token r Hok) as (Hj & Hne & Hv). cbn [json_dumps_at]. rewrite Hj.
    apply parse_number; try done. by apply andb_true_iff in Hok as [[? _]%andb_true_iff _].
  - apply parse_string.
  - destruct l as [|x l]; [reflexivity|].
    simpl in Hok. apply andb_true_iff in Hok as [Hx Hl].
    cbn [json_dumps_at]. rewrite !str_app_assoc, parse_value_bracket.
    assert (punct "]" (newline_indent (S lv) ^^
                       join ("," ^^ newline_indent (S lv)) (map (json_dumps_at (S lv)) (x :: l)) ^^
                       newline_indent lv ^^ "]" ^^ rest) = None) as ->.
    { destruct (join_cons_app ("," ^^ newline_indent (S lv)) (json_dumps_at (S lv) x)
                  (map (json_dumps_at (S lv)) l) (newline_indent lv ^^ "]" ^^ rest)) as [r' Hr'].
      rewrite punct_ws by apply newline_indent_ws. cbn [map]. rewrite Hr'.
      apply punct_dump; auto. }
    rewrite parse_elems_dump; [done|done| |cbn [size] in Hn; lia].
    apply (Forall_impl_ok _ json_ok); [done|]. simpl. by rewrite Hx, Hl.
  - destruct d as [|[k x] d]; [reflexivity|].
    cbn [json_dumps_at]. rewrite !str_app_assoc, parse_value_brace.
    assert (punct "}" (newline_indent (S lv) ^^
              join ("," ^^ newline_indent (S lv))
                   (map (fun kv => encode_basestring kv.1 ^^ ": " ^^ json_dumps_at (S lv) kv.2)
                        ((k, x) :: d)) ^^ newline_indent lv ^^ "}" ^^ rest) = None) as ->.
    { cbn [map fst snd].
      destruct (join_cons_app ("," ^^ newline_indent (S lv))
                  (encode_basestring k ^^ ": " ^^ json_dumps_at (S lv) x)
                  (map (fun kv => encode_basestring kv.1 ^^ ": " ^^ json_dumps_at (S lv) kv.2) d)
                  (newline_indent lv ^^ "}" ^^ rest)) as [r' ->].
      rewrite punct_ws by apply newline_indent_ws.
      by rewrite str_app_assoc, encode_basestring_app, punct_cons. }
    rewrite parse_members_dump; [done|done| |cbn [size] in Hn; lia].
    by apply (Forall_impl_ok _ (fun kv => json_ok kv.2)).
Qed.

(** ** Enough fuel *)

Lemma list_sum_le {A} (f g : A -> nat) (l : list A) :
  Forall (fun x => f x <= g x) l -> list_sum (map f l) <= list_sum (map g l).
Proof. induction 1; simpl; lia. Qed.

Lemma join_length (sep : string) (xs : list string) :
  1 <= String.length sep ->
  list_sum (map (fun x => S (String.length x)) xs) <= S (String.length (join sep xs)).
Proof.
  intros Hs. induction xs as [|a xs IH]; [simpl; lia|].
  destruct xs as [|b l]; [simpl; lia|].
  change (join sep (a :: b :: l)) with (a ^^ sep ^^ join sep (b :: l)).
  rewrite !str_app_length. simpl in *. lia.
Qed.

Lemma newline_indent_length n : 1 <= String.length (newline_indent n).
Proof. simpl. lia. Qed.

(** A value needs no more fuel than its text has characters. *)
Lemma size_le_length (v : PyVal) :
  json_ok v = true -> forall lv, size v <= String.length (json_dumps_at lv v).
Proof.
  induction v as [|b|z|r|s|l IH|d IH] using PyVal_ind'; intros Hok lv;
    try (destruct (dump_head lv _ Hok) as (c & t & -> & _); simpl; lia).
  - destruct l as [|x l]; [simpl; lia|].
    pose proof (Forall_impl_ok _ _ _ IH Hok) as Hall.
    cbn [json_dumps_at size]. rewrite !str_app_length.
    pose proof (join_length ("," ^^ newline_indent (S lv)) (map (json_dumps_at (S lv)) (x :: l))) as Hj.
    rewrite str_app_length in Hj. pose proof (newline_indent_length (S lv)).
    rewrite map_map in Hj.
    assert (list_sum (map (fun y => S (size y)) (x :: l)) <=
            list_sum (map (fun y => S (String.length (json_dumps_at (S lv) y))) (x :: l))).
    { apply list_sum_le. eapply Forall_impl; [exact Hall|]. simpl. intros y Hy. specialize (Hy (S lv)). lia. }
    simpl String.length at 1. lia.
  - destruct d as [|[k x] d]; [simpl; lia|].
    pose proof (Forall_impl_ok _ _ _ IH Hok) as Hall.
    cbn [json_dumps_at size]. rewrite !str_app_length.
    pose proof (join_length ("," ^^ newline_indent (S lv))
                  (map (fun kv => encode_basestring kv.1 ^^ ": " ^^ json_dumps_at (S lv) kv.2)
                       ((k, x) :: d))) as Hj.
    rewrite str_app_length in Hj. pose proof (newline_indent_length (S lv)).
    rewrite map_map in Hj.
    assert (list_sum (map (fun kv => S (size kv.2)) ((k, x) :: d)) <=
            list_sum (map (fun kv => S (String.length (encode_basestring kv.1 ^^ ": " ^^
                                                       json_dumps_at (S lv) kv.2))) ((k, x) :: d))).
    { apply list_sum_le. eapply Forall_impl; [exact Hall|]. simpl. intros kv Hkv.
      specialize (Hkv (S lv)). rewrite !str_app_length. lia. }
    simpl String.length at 1. lia.
Qed.

(** ** The round trip *)

(** C23: What [pretty] writes for a value with the [repr] of a float in each
    float reads back, by the JSON grammar, as the same value: the
    indented text of [json.dumps(obj, indent=2, ensure_ascii=False)] is
    JSON, and keeps every item, key and value in order. *)
Theorem pretty_roundtrip (v : PyVal) : json_ok v = true -> parse_json (pretty v) = Some v.
Proof.
  intros Hv. unfold parse_json, pretty, json_dumps.
  pose proof (dump_parse v Hv 0 (S (String.length (json_dumps_at 0 v))) EmptyString) as H.
  rewrite str_app_nil_r in H. rewrite H; [reflexivity| |reflexivity].
  pose proof (size_le_length v Hv 0). lia.
Qed.

(** ** The theorem at a concrete input *)

(** A user list with nested objects, a negative number, a non-ASCII
    name, a float written with an exponent, [NaN] and empty
    containers. *)
Definition users_sample : PyVal :=
  PList [PDict [("id", PInt 1); ("first_name", PStr "Ana")];
         PDict [("id", PInt (-2)); ("first_name", PStr "Zoë");
                ("scores", PList [PFloat "1e+16"; PFloat "nan"; PList []; PDict []])]].

Lemma pretty_roundtrip_witness :
  json_ok users_sample = true /\ parse_json (pretty users_sample) = Some users_sample.
Proof.
  assert (json_ok users_sample = true) as H by reflexivity.
  split; [exact H|exact (pretty_roundtrip users_sample H)].
Defined.
