(* ===== verification/Runtime.v ===== *)
(** * Runtime: the effects one run of the Streamlit script has

    A Streamlit app is a script that runs from top to bottom on every
    interaction.  One run of [src/app.py] has two kinds of effects, and
    may end by an exception that escapes it:
    - it appends elements to the page ([st.success], [st.error],
      [st.info], [st.json], [st.text_area], [st.markdown], [st.write],
      [st.title], [st.header], [st.subheader], [st.caption], and their
      [st.sidebar] forms): the list [st_ui];
    - it sends HTTP requests through [requests.get/post/put/delete]:
      the list [st_sent], each request recorded when it is attempted.

    [Script A] is a state and exception monad over this log, reading the
    network as an oracle: [Net] answers a request, given the requests
    sent before it in the session, by a [Response] or by the exception
    [requests] raises (connection refused, timeout, ...).  An exception
    that no [except] catches ends the run: Streamlit then shows a
    generic error box, since [client.showErrorDetails] is [False]
    (line 11), and the rest of the script does not run.

    The HTTP data ([Method], [Request], [Response]) and the truth value
    of a [Response] ([Response.__bool__], which is [Response.ok]) are the
    [requests] library's; they are stated here as the library defines
    them. *)

From Stdlib Require Import ZArith String.
From stdpp Require Import base list strings.
From S2P Require Import Prelude PyExc PyVal.
Import ListNotations.

(** ** HTTP data *)

Inductive Method := GET | POST | PUT | DELETE.

#[export] Instance Method_eq_dec : EqDecision Method.
Proof. solve_decision. Defined.

(** The keyword arguments the program passes to [requests]: [headers=],
    [json=] (absent on every call but the one of Create/Update User) and
    [timeout=] in seconds. *)
Record Kwargs := mkKwargs {
  kw_headers : list (string * string);
  kw_json : option PyVal;
  kw_timeout : Z
}.

Record Request := mkRequest {
  req_method : Method;
  req_url : string;
  req_kwargs : Kwargs
}.

(** A response: its status code, its body as text, and the value
    [resp.json()] decodes the body to ([None] when the body is not JSON,
    where [resp.json()] raises [requests.exceptions.JSONDecodeError]).
    [http.client] accepts only three-digit status codes. *)
Record Response := mkResponse {
  status_code : Z;
  resp_text : string;
  resp_body : option PyVal
}.

Definition wf_response (r : Response) : Prop :=
  (100 <= status_code r <= 999)%Z /\ from_option wf_val True (resp_body r).

(** [resp.json()]. *)
Definition resp_json (r : Response) : PyResult PyVal :=
  match resp_body r with
  | Some v => inr v
  | None => inl (mkExc JSONDecodeError "Expecting value: line 1 column 1 (char 0)")
  end.

(** [bool(resp)]: [Response.__bool__] returns [Response.ok], which is
    false exactly when [raise_for_status] raises, for a status in
    [400 .. 599]. *)
Definition response_ok (r : Response) : bool :=
  negb ((400 <=? status_code r)%Z && (status_code r <? 600)%Z).

(** [if resp:] on the [Optional[Response]] [make_request] returns. *)
Definition resp_truthy (o : option Response) : bool :=
  match o with Some r => response_ok r | None => false end.

(** ** The page *)

Inductive Area := Main | Sidebar.

Inductive Elem :=
  | Title (s : string)
  | Header (s : string)
  | Subheader (s : string)
  | Caption (s : string)
  | Success (s : string)
  | Error (s : string)
  | Info (s : string)
  | Json (v : PyVal)
  | TextArea (label text : string)
  | Markdown (s : string)
  | Write (s : string)
  (* The box Streamlit draws for an exception that ends a run: its text,
     or [None] when the details are redacted. *)
  | ErrorBox (details : option string).

Definition UiElem : Type := Area * Elem.

(** ** The script monad *)

Record St := mkSt { st_ui : list UiElem; st_sent : list Request }.

Definition Net : Type := list Request -> Request -> PyResult Response.

Definition Script (A : Type) : Type := Net -> St -> PyResult A * St.

#[export] Instance script_ret : MRet Script := fun A x _ st => (inr x, st).

#[export] Instance script_bind : MBind Script :=
  fun A B f c net st =>
    match c net st with
    | (inr a, st') => f a net st'
    | (inl e, st') => (inl e, st')
    end.

(** [raise e]. *)
Definition raise {A} (e : PyExc) : Script A := fun _ st => (inl e, st).

(** A pure Python computation that may raise. *)
Definition lift {A} (r : PyResult A) : Script A := fun _ st => (r, st).

(** [try: body except: handler], the handler deciding from the exception
    whether it catches it (and re-raising otherwise). *)
Definition try_except {A} (body : Script A) (handler : PyExc -> Script A) : Script A :=
  fun net st =>
    match body net st with
    | (inl e, st') => handler e net st'
    | ok => ok
    end.

(** Adding an element to the page. *)
Definition emit (a : Area) (e : Elem) : Script unit :=
  fun _ st => (inr tt, mkSt (st_ui st ++ [(a, e)]) (st_sent st)).

(** Sending a request: it is recorded, then the network answers. *)
Definition send (r : Request) : Script Response :=
  fun net st => (net (st_sent st) r, mkSt (st_ui st) (st_sent st ++ [r])).

(** Running a script from the empty page with the requests already sent
    in the session. *)
Definition run {A} (c : Script A) (net : Net) (sent : list Request) : PyResult A * St :=
  c net (mkSt [] sent).

(** ** Monad laws and the unfolding equations of the primitives *)

Section Laws.
Context {A B C : Type}.

Lemma bind_ret_l (x : A) (f : A -> Script B) : (mret x ≫= f) = f x.
Proof. reflexivity. Qed.

Lemma bind_ret_r (c : Script A) net st : (c ≫= mret) net st = c net st.
Proof. cbv. destruct (c net st) as [[] ?]; reflexivity. Qed.

Lemma bind_assoc (c : Script A) (f : A -> Script B) (g : B -> Script C) net st :
  ((c ≫= f) ≫= g) net st = (c ≫= (fun x => f x ≫= g)) net st.
Proof. cbv. destruct (c net st) as [[] ?]; reflexivity. Qed.

Lemma run_bind (c : Script A) (f : A -> Script B) net st :
  (c ≫= f) net st =
  match c net st with (inr a, st') => f a net st' | (inl e, st') => (inl e, st') end.
Proof. reflexivity. Qed.

Lemma run_emit a e net st :
  emit a e net st = (inr tt, mkSt (st_ui st ++ [(a, e)]) (st_sent st)).
Proof. reflexivity. Qed.

Lemma run_send r net st :
  send r net st = (net (st_sent st) r, mkSt (st_ui st) (st_sent st ++ [r])).
Proof. reflexivity. Qed.
End Laws.

#[export] Hint Rewrite @run_bind @run_emit @run_send : app_rw.

(** [script_unfold] turns a run of a script built from the primitives
    into the nested matches it computes to. *)
Ltac script_unfold :=
  cbv [try_except mbind script_bind mret script_ret send emit raise lift run] in *.

(** ** Which requests a script sends

    [sends l c]: running [c] appends exactly the requests [l] to the log
    of sent requests, whatever the network answers and whether [c]
    returns or raises.  The lemmas below compose it along the structure
    of a script; [sends_nothing] is the case [l = []]. *)
Definition sends {A} (l : list Request) (c : Script A) : Prop :=
  forall net st, st_sent (c net st).2 = st_sent st ++ l.

Abbreviation sends_nothing := (sends []).

Section Sends.
Context {A B : Type}.

Lemma sends_ret (x : A) : sends_nothing (mret x : Script A).
Proof. intros net st. by rewrite app_nil_r. Qed.

Lemma sends_emit a e : sends_nothing (emit a e).
Proof. intros net st. by rewrite app_nil_r. Qed.

Lemma sends_lift (r : PyResult A) : sends_nothing (lift r).
Proof. intros net st. by rewrite app_nil_r. Qed.

Lemma sends_raise e : sends_nothing (raise e : Script A).
Proof. intros net st. by rewrite app_nil_r. Qed.

Lemma sends_send r : sends [r] (send r).
Proof. by intros net st. Qed.

(** A script followed by continuations that send nothing. *)
Lemma sends_bind l (c : Script A) (f : A -> Script B) :
  sends l c -> (forall x, sends_nothing (f x)) -> sends l (c ≫= f).
Proof.
  intros Hc Hf net st. rewrite run_bind.
  destruct (c net st) as [[e|x] st'] eqn:E; simpl;
    specialize (Hc net st); rewrite E in Hc; simpl in Hc;
    [done | by rewrite Hf, app_nil_r].
Qed.

(** A script that sends nothing and cannot raise, followed by any. *)
Lemma sends_emit_then l a e (c : Script B) : sends l c -> sends l (emit a e;; c).
Proof. intros Hc net st. exact (Hc net _). Qed.

Lemma sends_try l (body : Script A) (h : PyExc -> Script A) :
  sends l body -> (forall e, sends_nothing (h e)) -> sends l (try_except body h).
Proof.
  intros Hb Hh net st. unfold try_except.
  specialize (Hb net st). destruct (body net st) as [[e|x] st']; simpl in *;
    [by rewrite Hh, app_nil_r | done].
Qed.

Lemma sends_if l (b : bool) (c1 c2 : Script A) :
  sends l c1 -> sends l c2 -> sends l (if b then c1 else c2).
Proof. by destruct b. Qed.
End Sends.

#[export] Hint Resolve sends_ret sends_emit sends_lift sends_raise sends_send
  sends_bind sends_emit_then sends_try sends_if : app.

(** [returns c]: [c] never raises. *)
Definition returns {A} (c : Script A) : Prop :=
  forall net st, exists x st', c net st = (inr x, st').

(** A script that never raises, followed by a script that sends more. *)
Lemma sends_seq {A B} l1 l2 (c : Script A) (f : A -> Script B) :
  returns c -> sends l1 c -> (forall x, sends l2 (f x)) -> sends (l1 ++ l2) (c ≫= f).
Proof.
  intros Hr Hc Hf net st. rewrite run_bind.
  destruct (Hr net st) as (x & st' & E). rewrite E.
  specialize (Hc net st). rewrite E in Hc. simpl in Hc.
  by rewrite Hf, Hc, app_assoc.
Qed.
