(* ===== verification/Helpers.v ===== *)
(** * Helpers: configuration, [get_headers], [make_request], [show_response]

    The helper layer of [src/app.py] (lines 28-103), which every action
    of the page goes through:
    - [Config]: the two sidebar inputs [BASE_URL] and [token_input]
      (lines 29-38), read by every helper at call time;
    - [get_headers] (lines 50-58): the JSON headers and, when asked for
      and a token is set, the bearer header;
    - [make_request] (lines 80-103): one [requests] call chosen by the
      upper-cased method, with the three [except] clauses that turn a
      transport failure into a message and [None];
    - [show_response] (lines 60-78): the rendering of a response, success
      or error, with the fallbacks to the raw text.
    The helper [pretty] (lines 43-48), which no action calls, is
    modelled in [Pretty]. *)

From Stdlib Require Import ZArith String Ascii.
From stdpp Require Import base list strings.
From S2P Require Import Prelude PyExc PyVal Runtime.
Import ListNotations.

(** ** Configuration *)

(** The values of the sidebar text inputs on this run: [BASE_URL]
    (default [$API_BASE_URL] or [http://localhost:8010]) and
    [token_input] (empty when no token is entered). *)
Record Config := mkConfig { BASE_URL : string; token_input : string }.

(** ** [get_headers] *)

Definition json_headers : list (string * string) :=
  [("Accept", "application/json"); ("Content-Type", "application/json")].

Definition get_headers (cfg : Config) (require_auth : bool) : list (string * string) :=
  let headers := json_headers in
  if require_auth && nonempty (token_input cfg)
  then assoc_set "Authorization" ("Bearer " ^^ token_input cfg) headers
  else headers.

(** ** [make_request] *)

(** [str.upper], on the UTF-8 bytes of the text.  ASCII letters go to
    their capitals.  The characters whose upper case is ASCII are
    mapped as Python maps them: U+00DF to [SS], U+0131 to [I], U+017F
    to [S], and the ligatures U+FB00 .. U+FB06 to [FF], [FI], [FL],
    [FFI], [FFL], [ST], [ST].  Any other character is kept; its upper case
    in Python is also a non-ASCII character, so the upper-cased text
    equals an ASCII method name in the model exactly when it does in
    Python, which is all [method_of] looks at. *)
Definition ascii_upper (c : ascii) : ascii :=
  let n := nat_of_ascii c in
  if (97 <=? n)%nat && (n <=? 122)%nat then ascii_of_nat (n - 32) else c.

Definition byte_is (c : ascii) (n : nat) : bool := (nat_of_ascii c =? n)%nat.

(** The ASCII upper case of the ligature [EF AC e]. *)
Definition ligature_upper (e : ascii) : option string :=
  match nat_of_ascii e with
  | 128 => Some "FF" | 129 => Some "FI" | 130 => Some "FL" | 131 => Some "FFI"
  | 132 => Some "FFL" | 133 => Some "ST" | 134 => Some "ST" | _ => None
  end.

Fixpoint str_upper (s : string) : string :=
  match s with
  | EmptyString => EmptyString
  | String c s' =>
      let plain := String (ascii_upper c) (str_upper s') in
      match s' with
      | EmptyString => plain
      | String d s'' =>
          if byte_is c 195 && byte_is d 159 then "SS" ^^ str_upper s''
          else if byte_is c 196 && byte_is d 177 then "I" ^^ str_upper s''
          else if byte_is c 197 && byte_is d 191 then "S" ^^ str_upper s''
          else match s'' with
               | String e s3 =>
                   match (if byte_is c 239 && byte_is d 172 then ligature_upper e else None) with
                   | Some u => u ^^ str_upper s3
                   | None => plain
                   end
               | EmptyString => plain
               end
      end
  end.

(** The [if/elif] chain on [method.upper()]. *)
Definition method_of (upper : string) : option Method :=
  if decide (upper = "GET") then Some GET
  else if decide (upper = "POST") then Some POST
  else if decide (upper = "PUT") then Some PUT
  else if decide (upper = "DELETE") then Some DELETE
  else None.

Definition conn_failed_msg (cfg : Config) : string :=
  "❌ Connection failed. Is the backend running at " ^^ BASE_URL cfg ^^ "?".

Definition timeout_msg : string := "⏱️ Request timed out".

Definition request_failed_msg (e : PyExc) : string := "❌ Request failed: " ^^ exc_msg e.

(** The three [except] clauses, tried in order; an exception that none
    of them catches propagates. *)
Definition make_request_handler (cfg : Config) (e : PyExc) : Script (option Response) :=
  if catches ConnectionError e then
    emit Main (Error (conn_failed_msg cfg));; mret None
  else if catches Timeout e then
    emit Main (Error timeout_msg);; mret None
  else if catches RequestException e then
    emit Main (Error (request_failed_msg e));; mret None
  else raise e.

Definition make_request (cfg : Config) (method url : string) (kw : Kwargs)
    : Script (option Response) :=
  try_except
    (match method_of (str_upper method) with
     | Some m => resp ← send (mkRequest m url kw); mret (Some resp)
     | None => emit Main (Error ("Unsupported method: " ^^ method));; mret None
     end)
    (make_request_handler cfg).

(** ** [show_response] *)

Definition error_prefix (status : Z) : string := "Error " ^^ int_str status ^^ ": ".

(** The success branch: the optional success message, then [st.json] of
    the decoded body, or the raw text when the body does not decode. *)
Definition show_success (resp : Response) (success_message : option string)
    : Script PyVal :=
  (match success_message with
   | Some m => if nonempty m then emit Main (Success m) else mret ()
   | None => mret ()
   end);;
  try_except
    (data ← lift (resp_json resp);
     emit Main (Json data);;
     mret data)
    (fun _ => emit Main (TextArea "Raw response (text)" (resp_text resp));; mret PNone).

(** The error branch: the [detail] of a dict body, else the raw text.
    The f-string is built before [st.error] runs, so an [AttributeError]
    from [.get] on a body that is not a dict leaves no first message. *)
Definition show_error (resp : Response) : Script PyVal :=
  try_except
    (error_data ← lift (resp_json resp);
     detail ← lift (py_get error_data "detail" (PStr "Unknown error"));
     emit Main (Error (error_prefix (status_code resp) ^^ py_str detail)))
    (fun _ => emit Main (Error (error_prefix (status_code resp) ^^ resp_text resp)));;
  mret PNone.

(** [show_response(resp, success_message)]; Python's [None] result is
    [PNone]. *)
Definition show_response (resp : Response) (success_message : option string)
    : Script PyVal :=
  if (status_code resp <? 400)%Z then show_success resp success_message
  else show_error resp.

(** ** Properties *)

(** The header list [get_headers] builds: the two JSON headers, then
    the bearer header when it is added. *)
Lemma get_headers_eq (cfg : Config) (require_auth : bool) :
  get_headers cfg require_auth =
  json_headers ++
    (if require_auth && nonempty (token_input cfg)
     then [("Authorization", "Bearer " ^^ token_input cfg)] else []).
Proof. unfold get_headers. by destruct (_ && _). Qed.

(** C18: [get_headers] always sends [Accept] and [Content-Type] as
    [application/json], and sends [Authorization: Bearer <token>] exactly
    when authentication is asked for and a token is entered. *)
Theorem get_headers_spec (cfg : Config) (require_auth : bool) :
  assoc_lookup "Accept" (get_headers cfg require_auth) = Some "application/json" /\
  assoc_lookup "Content-Type" (get_headers cfg require_auth) = Some "application/json" /\
  assoc_lookup "Authorization" (get_headers cfg require_auth) =
    (if require_auth && nonempty (token_input cfg)
     then Some ("Bearer " ^^ token_input cfg) else None).
Proof. rewrite get_headers_eq. by destruct (_ && _). Qed.

Section MakeRequest.
Context (cfg : Config) (method url : string) (kw : Kwargs) (net : Net) (st : St).

Lemma make_request_supported_run (m : Method) :
  method_of (str_upper method) = Some m ->
  make_request cfg method url kw net st =
  let r := mkRequest m url kw in
  let st' := mkSt (st_ui st) (st_sent st ++ [r]) in
  match net (st_sent st) r with
  | inr resp => (inr (Some resp), st')
  | inl e => make_request_handler cfg e net st'
  end.
Proof.
  intros Hm. unfold make_request. rewrite Hm. script_unfold.
  by destruct (net _ _).
Qed.

(** C12: A supported method sends exactly one request, with that verb, to
    that URL, with those keyword arguments, and returns the response
    as it came, whatever its status, adding nothing to the page. *)
Theorem make_request_response (m : Method) (resp : Response) :
  method_of (str_upper method) = Some m ->
  net (st_sent st) (mkRequest m url kw) = inr resp ->
  make_request cfg method url kw net st = (inr (Some resp), mkSt (st_ui st) (st_sent st ++ [mkRequest m url kw])).
Proof. intros Hm Hn. rewrite (make_request_supported_run m Hm). cbv zeta. by rewrite Hn. Qed.

(** C13: A connection failure ([ConnectionError] or a subclass, which
    includes [ConnectTimeout]) is reported as an unreachable backend at
    the configured [BASE_URL]; nothing is raised. *)
Theorem make_request_connection_error (m : Method) (e : PyExc) :
  method_of (str_upper method) = Some m ->
  net (st_sent st) (mkRequest m url kw) = inl e ->
  subclass (exc_class e) ConnectionError ->
  make_request cfg method url kw net st =
  (inr None, mkSt (st_ui st ++ [(Main, Error (conn_failed_msg cfg))]) (st_sent st ++ [mkRequest m url kw])).
Proof.
  intros Hm Hn Hc. rewrite (make_request_supported_run m Hm). cbv zeta. rewrite Hn.
  unfold make_request_handler. by rewrite catches_true.
Qed.

(** C14: A timeout that is not also a connection error ([ReadTimeout],
    [Timeout]) is reported as a timeout. *)
Theorem make_request_timeout (m : Method) (e : PyExc) :
  method_of (str_upper method) = Some m ->
  net (st_sent st) (mkRequest m url kw) = inl e ->
  ~ subclass (exc_class e) ConnectionError ->
  subclass (exc_class e) Timeout ->
  make_request cfg method url kw net st =
  (inr None, mkSt (st_ui st ++ [(Main, Error timeout_msg)]) (st_sent st ++ [mkRequest m url kw])).
Proof.
  intros Hm Hn Hc Ht. rewrite (make_request_supported_run m Hm). cbv zeta. rewrite Hn.
  unfold make_request_handler. by rewrite catches_false, catches_true.
Qed.

(** C15: Any other [requests] exception is reported with its message. *)
Theorem make_request_other_failure (m : Method) (e : PyExc) :
  method_of (str_upper method) = Some m ->
  net (st_sent st) (mkRequest m url kw) = inl e ->
  ~ subclass (exc_class e) ConnectionError ->
  ~ subclass (exc_class e) Timeout ->
  subclass (exc_class e) RequestException ->
  make_request cfg method url kw net st =
  (inr None, mkSt (st_ui st ++ [(Main, Error (request_failed_msg e))]) (st_sent st ++ [mkRequest m url kw])).
Proof.
  intros Hm Hn Hc Ht Hr. rewrite (make_request_supported_run m Hm). cbv zeta. rewrite Hn.
  unfold make_request_handler. by rewrite (catches_false ConnectionError), (catches_false Timeout), catches_true.
Qed.

(** C16: An exception outside [requests.exceptions] is not caught: it ends
    the run, after the request was attempted. *)
Theorem make_request_foreign_exception (m : Method) (e : PyExc) :
  method_of (str_upper method) = Some m ->
  net (st_sent st) (mkRequest m url kw) = inl e ->
  ~ subclass (exc_class e) RequestException ->
  make_request cfg method url kw net st = (inl e, mkSt (st_ui st) (st_sent st ++ [mkRequest m url kw])).
Proof.
  intros Hm Hn Hr. rewrite (make_request_supported_run m Hm). cbv zeta. rewrite Hn.
  assert (~ subclass (exc_class e) ConnectionError) as Hc
    by eauto using subclass_trans, ConnectionError_RequestException.
  assert (~ subclass (exc_class e) Timeout) as Ht
    by eauto using subclass_trans, Timeout_RequestException.
  unfold make_request_handler. by rewrite !catches_false.
Qed.

(** C17: A method other than GET, POST, PUT and DELETE (after upper-casing)
    sends nothing and reports the method as unsupported. *)
Theorem make_request_unsupported :
  method_of (str_upper method) = None ->
  make_request cfg method url kw net st =
  (inr None, mkSt (st_ui st ++ [(Main, Error ("Unsupported method: " ^^ method))])
                  (st_sent st)).
Proof. intros Hm. unfold make_request. rewrite Hm. reflexivity. Qed.
End MakeRequest.

(** The run of [make_request] when its request [req], sent after the
    requests [hist], is answered; the form the other components use. *)
(** The message [make_request] shows for a [requests] exception: the
    first of its three [except] clauses that catches it. *)
Definition transport_msg (cfg : Config) (e : PyExc) : string :=
  if catches ConnectionError e then conn_failed_msg cfg
  else if catches Timeout e then timeout_msg
  else request_failed_msg e.

Lemma make_request_failed cfg method url kw (m : Method) net st hist e req :
  st_sent st = hist ->
  method_of (str_upper method) = Some m ->
  mkRequest m url kw = req ->
  net hist req = inl e ->
  subclass (exc_class e) RequestException ->
  make_request cfg method url kw net st =
  (inr None, mkSt (st_ui st ++ [(Main, Error (transport_msg cfg e))]) (hist ++ [req])).
Proof.
  intros <- Hm <- Hn Hr. rewrite (make_request_supported_run _ _ _ _ _ _ m Hm).
  cbv zeta. rewrite Hn. unfold make_request_handler, transport_msg.
  destruct (catches ConnectionError e), (catches Timeout e); [done..|].
  by rewrite catches_true.
Qed.

Lemma make_request_answered cfg method url kw (m : Method) net st hist r req :
  st_sent st = hist ->
  method_of (str_upper method) = Some m ->
  mkRequest m url kw = req ->
  net hist req = inr r ->
  make_request cfg method url kw net st = (inr (Some r), mkSt (st_ui st) (hist ++ [req])).
Proof.
  intros <- Hm <- Hn. rewrite (make_request_supported_run _ _ _ _ _ _ m Hm).
  cbv zeta. by rewrite Hn.
Qed.

(** What the optional success message adds to the page. *)
Definition success_elems (success_message : option string) : list UiElem :=
  match success_message with
  | Some m => if nonempty m then [(Main, Success m)] else []
  | None => []
  end.

(** The detail [error_data.get('detail', 'Unknown error')] of a dict. *)
Definition detail_of (d : list (string * PyVal)) : PyVal :=
  from_option id (PStr "Unknown error") (assoc_lookup "detail" d).

Section ShowResponse.
Context (resp : Response) (success_message : option string) (net : Net) (st : St).

(** What [show_response] adds to the page, and returns, on every branch:
    the case analysis the theorems below and the blocks share. *)
Lemma show_response_run :
  show_response resp success_message net st =
  if (status_code resp <? 400)%Z then
    let ui := st_ui st ++ success_elems success_message in
    match resp_body resp with
    | Some v => (inr v, mkSt (ui ++ [(Main, Json v)]) (st_sent st))
    | None => (inr PNone,
               mkSt (ui ++ [(Main, TextArea "Raw response (text)" (resp_text resp))])
                    (st_sent st))
    end
  else
    let msg := match resp_body resp with
               | Some (PDict d) => py_str (detail_of d)
               | _ => resp_text resp
               end in
    (inr PNone, mkSt (st_ui st ++ [(Main, Error (error_prefix (status_code resp) ^^ msg))])
                     (st_sent st)).
Proof.
  unfold show_response. destruct (_ <? _)%Z.
  - unfold show_success, resp_json, success_elems. script_unfold.
    destruct success_message as [m|]; [destruct (nonempty m)|];
      destruct (resp_body resp); simpl; rewrite ?app_nil_r; done.
  - unfold show_error, resp_json, detail_of. script_unfold.
    destruct (resp_body resp) as [[|b|z|f|s|l|d]|]; simpl; try done.
    by destruct (assoc_lookup _ _).
Qed.

(** C25: A status below 400 with a JSON body: the optional success message,
    then the decoded value, which is returned unchanged. *)
Theorem show_response_json (v : PyVal) :
  (status_code resp < 400)%Z ->
  resp_body resp = Some v ->
  show_response resp success_message net st =
  (inr v, mkSt (st_ui st ++ success_elems success_message ++ [(Main, Json v)])
               (st_sent st)).
Proof.
  intros Hs Hb. rewrite show_response_run, (proj2 (Z.ltb_lt _ _) Hs), Hb.
  by rewrite app_assoc.
Qed.

(** C26: A status below 400 with a body that is not JSON: the raw text, and
    [None] is returned. *)
Theorem show_response_raw_text :
  (status_code resp < 400)%Z ->
  resp_body resp = None ->
  show_response resp success_message net st =
  (inr PNone,
   mkSt (st_ui st ++ success_elems success_message
                  ++ [(Main, TextArea "Raw response (text)" (resp_text resp))])
        (st_sent st)).
Proof.
  intros Hs Hb. rewrite show_response_run, (proj2 (Z.ltb_lt _ _) Hs), Hb.
  by rewrite app_assoc.
Qed.

(** C27: A status of 400 or more with a dict body: one error message with
    the status code and the [detail] field, or ["Unknown error"]. *)
Theorem show_response_error_detail (d : list (string * PyVal)) :
  (400 <= status_code resp)%Z ->
  resp_body resp = Some (PDict d) ->
  show_response resp success_message net st =
  (inr PNone,
   mkSt (st_ui st ++ [(Main, Error (error_prefix (status_code resp) ^^ py_str (detail_of d)))])
        (st_sent st)).
Proof.
  intros Hs Hb. by rewrite show_response_run, (proj2 (Z.ltb_ge _ _) Hs), Hb.
Qed.

(** C28: A status of 400 or more with a body that is not a JSON object (not
    JSON, or a JSON list, string, number...): the raw text. *)
Theorem show_response_error_text :
  (400 <= status_code resp)%Z ->
  (forall d, resp_body resp <> Some (PDict d)) ->
  show_response resp success_message net st =
  (inr PNone,
   mkSt (st_ui st ++ [(Main, Error (error_prefix (status_code resp) ^^ resp_text resp))])
        (st_sent st)).
Proof.
  intros Hs Hb. rewrite show_response_run, (proj2 (Z.ltb_ge _ _) Hs).
  destruct (resp_body resp) as [[|b|z|f|s|l|d]|]; try done. by destruct (Hb d).
Qed.

(** C29: [show_response] never raises and never sends: it adds one or two
    elements to the page and returns. *)
Theorem show_response_total :
  exists v els,
    show_response resp success_message net st = (inr v, mkSt (st_ui st ++ els) (st_sent st))
    /\ 1 <= length els <= 2.
Proof.
  rewrite show_response_run. unfold success_elems.
  destruct (_ <? _)%Z; cbv zeta; repeat case_match; eexists _, _;
    (split; [by rewrite <-?app_assoc|]); rewrite ?length_app; simpl; lia.
Qed.
End ShowResponse.

(** ** Requests sent by the helpers *)

Lemma make_request_handler_sends cfg e : sends_nothing (make_request_handler cfg e).
Proof. unfold make_request_handler. repeat apply sends_if; auto with app. Qed.

(** [make_request] with a supported method attempts exactly one
    request, whatever comes back; with another method it sends none. *)
Lemma make_request_sends cfg method url kw (m : Method) :
  method_of (str_upper method) = Some m ->
  sends [mkRequest m url kw] (make_request cfg method url kw).
Proof.
  intros Hm. unfold make_request. rewrite Hm.
  apply sends_try; auto using make_request_handler_sends with app.
Qed.

Lemma show_response_sends resp m : sends_nothing (show_response resp m).
Proof.
  unfold show_response, show_success, show_error.
  apply sends_if; [apply sends_bind; [case_match; auto with app|]|]; auto with app.
Qed.

#[export] Hint Resolve make_request_handler_sends show_response_sends : app.

(** ** The theorems at concrete inputs

    The local backend of the default configuration, a token, and the
    responses of the scenarios of the specification. *)

Definition local_cfg : Config := mkConfig "http://localhost:8010" "s3cret".

Definition no_sent : St := mkSt [] [].

Definition users_kw : Kwargs := mkKwargs (get_headers local_cfg false) None 10.

Definition answer (r : PyResult Response) : Net := fun _ _ => r.

Definition ana : PyVal := PDict [("id", PInt 1); ("first_name", PStr "Ana")].

Lemma make_request_response_witness :
  method_of (str_upper "get") = Some GET /\
  make_request local_cfg "get" "http://localhost:8010/users/1" users_kw
    (answer (inr (mkResponse 200 "" (Some ana)))) no_sent =
  (inr (Some (mkResponse 200 "" (Some ana))),
   mkSt [] [mkRequest GET "http://localhost:8010/users/1" users_kw]).
Proof. split; [reflexivity|]. by apply (make_request_response _ _ _ _ _ no_sent GET). Defined.

(** A connect timeout is caught by the first clause: reported as an
    unreachable backend, not as a timeout. *)
Lemma make_request_connection_error_witness :
  subclass ConnectTimeout ConnectionError /\
  make_request local_cfg "GET" "http://localhost:8010/health" users_kw
    (answer (inl (mkExc ConnectTimeout "connect timeout"))) no_sent =
  (inr None,
   mkSt [(Main, Error "❌ Connection failed. Is the backend running at http://localhost:8010?")]
        [mkRequest GET "http://localhost:8010/health" users_kw]).
Proof.
  assert (subclass ConnectTimeout ConnectionError) as H by (by apply issubclass_spec).
  split; [exact H|]. by apply (make_request_connection_error local_cfg "GET" _ _ _ no_sent GET (mkExc ConnectTimeout "connect timeout") eq_refl eq_refl).
Defined.

Lemma make_request_timeout_witness :
  ~ subclass ReadTimeout ConnectionError /\ subclass ReadTimeout Timeout /\
  make_request local_cfg "GET" "http://localhost:8010/users/1/booklet" users_kw
    (answer (inl (mkExc ReadTimeout "read timeout"))) no_sent =
  (inr None, mkSt [(Main, Error "⏱️ Request timed out")]
                  [mkRequest GET "http://localhost:8010/users/1/booklet" users_kw]).
Proof.
  assert (~ subclass ReadTimeout ConnectionError) as H1
    by (rewrite <-issubclass_spec; discriminate).
  assert (subclass ReadTimeout Timeout) as H2 by (by apply issubclass_spec).
  split; [exact H1|split; [exact H2|]].
  by apply (make_request_timeout local_cfg "GET" _ _ _ no_sent GET (mkExc ReadTimeout "read timeout") eq_refl eq_refl).
Defined.

Lemma make_request_other_failure_witness :
  ~ subclass InvalidURL ConnectionError /\ ~ subclass InvalidURL Timeout /\
  subclass InvalidURL RequestException /\
  make_request local_cfg "GET" "http://[::1/users" users_kw
    (answer (inl (mkExc InvalidURL "Invalid URL"))) no_sent =
  (inr None, mkSt [(Main, Error "❌ Request failed: Invalid URL")]
                  [mkRequest GET "http://[::1/users" users_kw]).
Proof.
  assert (~ subclass InvalidURL ConnectionError) as H1
    by (rewrite <-issubclass_spec; discriminate).
  assert (~ subclass InvalidURL Timeout) as H2 by (rewrite <-issubclass_spec; discriminate).
  assert (subclass InvalidURL RequestException) as H3 by (by apply issubclass_spec).
  split; [exact H1|split; [exact H2|split; [exact H3|]]].
  by apply (make_request_other_failure local_cfg "GET" _ _ _ no_sent GET (mkExc InvalidURL "Invalid URL") eq_refl eq_refl).
Defined.

Lemma make_request_foreign_exception_witness :
  ~ subclass ValueError RequestException /\
  make_request local_cfg "GET" "http://localhost:8010/users" users_kw
    (answer (inl (mkExc ValueError "bad value"))) no_sent =
  (inl (mkExc ValueError "bad value"),
   mkSt [] [mkRequest GET "http://localhost:8010/users" users_kw]).
Proof.
  assert (~ subclass ValueError RequestException) as H
    by (rewrite <-issubclass_spec; discriminate).
  split; [exact H|]. by apply (make_request_foreign_exception local_cfg "GET" _ _ _ no_sent GET (mkExc ValueError "bad value") eq_refl eq_refl).
Defined.

Lemma make_request_unsupported_witness :
  method_of (str_upper "patch") = None /\
  make_request local_cfg "patch" "http://localhost:8010/users" users_kw
    (answer (inr (mkResponse 200 "" None))) no_sent =
  (inr None, mkSt [(Main, Error "Unsupported method: patch")] []).
Proof. split; [reflexivity|]. by apply (make_request_unsupported _ _ _ _ _ no_sent). Defined.

Definition resp_ana : Response := mkResponse 200 "(the JSON text of ana)" (Some ana).
Definition resp_ok_text : Response := mkResponse 200 "OK" None.
Definition resp_404 : Response :=
  mkResponse 404 "(the JSON text of the detail)" (Some (PDict [("detail", PStr "User not found")])).
Definition resp_500 : Response := mkResponse 500 "internal error" None.

(** Status 200 with body [{"id":1,"first_name":"Ana"}]: the structure,
    unchanged. *)
Lemma show_response_json_witness :
  (status_code resp_ana < 400)%Z /\ resp_body resp_ana = Some ana /\
  show_response resp_ana None (answer (inr resp_ok_text)) no_sent =
  (inr ana, mkSt [(Main, Json ana)] []).
Proof.
  assert ((status_code resp_ana < 400)%Z) as H by (simpl; lia).
  split; [exact H|split; [reflexivity|]].
  exact (show_response_json resp_ana None (answer (inr resp_ok_text)) no_sent ana H eq_refl).
Defined.

Lemma show_response_raw_text_witness :
  (status_code resp_ok_text < 400)%Z /\ resp_body resp_ok_text = None /\
  show_response resp_ok_text (Some "✅ User saved successfully!") (answer (inr resp_ok_text)) no_sent =
  (inr PNone, mkSt [(Main, Success "✅ User saved successfully!");
                    (Main, TextArea "Raw response (text)" "OK")] []).
Proof.
  assert ((status_code resp_ok_text < 400)%Z) as H by (simpl; lia).
  split; [exact H|split; [reflexivity|]].
  exact (show_response_raw_text resp_ok_text _ (answer (inr resp_ok_text)) no_sent H eq_refl).
Defined.

(** Status 404 with body [{"detail":"User not found"}]: the message has
    the status and the detail. *)
Lemma show_response_error_detail_witness :
  (400 <= status_code resp_404)%Z /\
  show_response resp_404 None (answer (inr resp_ok_text)) no_sent =
  (inr PNone, mkSt [(Main, Error "Error 404: User not found")] []).
Proof.
  assert ((400 <= status_code resp_404)%Z) as H by (simpl; lia).
  split; [exact H|].
  exact (show_response_error_detail resp_404 None (answer (inr resp_ok_text)) no_sent
           [("detail", PStr "User not found")] H eq_refl).
Defined.

(** Status 500 with the body [internal error], which is not JSON: the
    raw text with the status. *)
Lemma show_response_error_text_witness :
  (400 <= status_code resp_500)%Z /\ (forall d, resp_body resp_500 <> Some (PDict d)) /\
  show_response resp_500 None (answer (inr resp_ok_text)) no_sent =
  (inr PNone, mkSt [(Main, Error "Error 500: internal error")] []).
Proof.
  assert ((400 <= status_code resp_500)%Z) as H1 by (simpl; lia).
  assert (forall d, resp_body resp_500 <> Some (PDict d)) as H2 by discriminate.
  split; [exact H1|split; [exact H2|]].
  exact (show_response_error_text resp_500 None (answer (inr resp_ok_text)) no_sent H1 H2).
Defined.

(** [method.upper()] on non-ASCII spellings: ['poſt'] (U+017F) is
    ['POST'] and ['ﬆatus'] (U+FB06) is ['STATUS'], as in Python. *)
Lemma str_upper_non_ascii :
  method_of (str_upper "poſt") = Some POST /\ str_upper "ﬆatus" = "STATUS".
Proof. split; reflexivity. Qed.
