(* ===== verification/Payload.v ===== *)
(** * Payload: the Create/Update User form and the JSON body it sends

    Lines 153-188 of [src/app.py]: the eight inputs of the form, the
    required-field check on [first_name], and the payload dict built by
    assignment, starting from [first_name] and adding each other field
    only when it is filled: a text input when it is not empty, the date
    and the time when one was picked.  The date is formatted by
    [strftime('%Y-%m-%d')] and the time by [strftime('%H:%M')].

    [st.date_input] and [st.time_input] with [value=None] return [None]
    until a value is picked; a [datetime.date] and (since Python 3.5) a
    [datetime.time] are always true, so [if birthdate:] and
    [if birthtime:] test only that a value was picked: [option] here.
    [st.date_input] bounds the year to ten years around today, so a
    year has four digits ([wf_date]); [st.time_input] returns whole
    minutes. *)

From Stdlib Require Import ZArith String Ascii.
From stdpp Require Import base list strings.
From S2P Require Import Prelude PyExc PyVal.
Import ListNotations.

Record Date := mkDate { year : Z; month : Z; day : Z }.
Record Time := mkTime { hour : Z; minute : Z }.

Definition wf_date (d : Date) : Prop :=
  (1000 <= year d <= 9999 /\ 1 <= month d <= 12 /\ 1 <= day d <= 31)%Z.

Definition wf_time (t : Time) : Prop := (0 <= hour t <= 23 /\ 0 <= minute t <= 59)%Z.

(** Zero-padding of a decimal field to [w] characters, as [%m], [%d],
    [%H] and [%M] do. *)
Fixpoint zeros (n : nat) : string :=
  match n with O => "" | S n' => String "0"%char (zeros n') end.

Definition pad (w : nat) (s : string) : string := zeros (w - String.length s) ^^ s.

(** [date.strftime('%Y-%m-%d')]. *)
Definition format_date (d : Date) : string :=
  pad 4 (int_str (year d)) ^^ "-" ^^ pad 2 (int_str (month d)) ^^ "-" ^^ pad 2 (int_str (day d)).

(** [time.strftime('%H:%M')]. *)
Definition format_time (t : Time) : string :=
  pad 2 (int_str (hour t)) ^^ ":" ^^ pad 2 (int_str (minute t)).

(** The values of the form's inputs on this run. *)
Record UserForm := mkUserForm {
  first_name : string;
  last_name : string;
  birthdate : option Date;
  birthtime : option Time;
  city : string;
  country : string;
  login : string;
  timezone : string
}.

(** [if field: payload[key] = field] for a text input. *)
Definition add_text (key value : string) (payload : list (string * PyVal))
    : list (string * PyVal) :=
  if nonempty value then assoc_set key (PStr value) payload else payload.

(** [if field: payload[key] = field.strftime(...)] for a date or a time. *)
Definition add_formatted {A} (key : string) (fmt : A -> string) (value : option A)
    (payload : list (string * PyVal)) : list (string * PyVal) :=
  match value with
  | Some x => assoc_set key (PStr (fmt x)) payload
  | None => payload
  end.

(** The payload, lines 171-188, assignment after assignment. *)
Definition build_payload (f : UserForm) : list (string * PyVal) :=
  let payload := [("first_name", PStr (first_name f))] in
  let payload := add_text "last_name" (last_name f) payload in
  let payload := add_formatted "birthdate" format_date (birthdate f) payload in
  let payload := add_formatted "birthtime" format_time (birthtime f) payload in
  let payload := add_text "city" (city f) payload in
  let payload := add_text "country" (country f) payload in
  let payload := add_text "login" (login f) payload in
  add_text "timezone" (timezone f) payload.

(** [if not first_name:] blocks the submission. *)
Definition form_valid (f : UserForm) : bool := nonempty (first_name f).

(** ** Properties *)

(** The abstract contract of partial update: the entry of one optional
    field, present exactly when the operator filled it. *)
Definition text_entry (key value : string) : list (string * PyVal) :=
  if nonempty value then [(key, PStr value)] else [].

Definition formatted_entry {A} (key : string) (fmt : A -> string) (value : option A)
    : list (string * PyVal) :=
  from_option (fun x => [(key, PStr (fmt x))]) [] value.

Definition filled_fields (f : UserForm) : list (string * PyVal) :=
  text_entry "last_name" (last_name f) ++
  formatted_entry "birthdate" format_date (birthdate f) ++
  formatted_entry "birthtime" format_time (birthtime f) ++
  text_entry "city" (city f) ++ text_entry "country" (country f) ++
  text_entry "login" (login f) ++ text_entry "timezone" (timezone f).

(** Case analysis on which of the seven optional fields are filled. *)
Ltac fields_cases f :=
  destruct (nonempty (last_name f)) eqn:?, (birthdate f), (birthtime f),
    (nonempty (city f)) eqn:?, (nonempty (country f)) eqn:?,
    (nonempty (login f)) eqn:?, (nonempty (timezone f)) eqn:?.

(** The payload, entry by entry: each assignment adds a new key at the
    end. *)
Lemma build_payload_eq (f : UserForm) :
  build_payload f = ("first_name", PStr (first_name f)) :: filled_fields f.
Proof.
  unfold build_payload, filled_fields, add_text, add_formatted, text_entry, formatted_entry.
  fields_cases f; reflexivity.
Qed.

(** C19: [build_payload] is [first_name] followed by exactly the filled
    fields, in the order of the code: a text field when it is not empty,
    the date and the time when one was picked, formatted. *)
Theorem build_payload_spec (f : UserForm) :
  build_payload f = ("first_name", PStr (first_name f)) :: filled_fields f.
Proof. apply build_payload_eq. Qed.

Lemma format_date_nonempty d : nonempty (format_date d) = true.
Proof. unfold format_date. apply nonempty_app_r. by rewrite str_app_cons. Qed.

Lemma format_time_nonempty t : nonempty (format_time t) = true.
Proof. unfold format_time. apply nonempty_app_r. by rewrite str_app_cons. Qed.

(** A value the payload may carry: a non-empty string. *)
Definition filled_value (kv : string * PyVal) : Prop :=
  exists s, kv.2 = PStr s /\ nonempty s = true.

Lemma text_entry_values k v : Forall filled_value (text_entry k v).
Proof.
  unfold text_entry. destruct (nonempty v) eqn:Hv; repeat constructor. by exists v.
Qed.

Lemma formatted_entry_values {A} k (fmt : A -> string) v :
  (forall x, nonempty (fmt x) = true) -> Forall filled_value (formatted_entry k fmt v).
Proof. intros Hf. destruct v; repeat constructor. eexists; eauto. Qed.

Lemma filled_fields_values f : Forall filled_value (filled_fields f).
Proof.
  unfold filled_fields. repeat apply Forall_app_2;
    auto using text_entry_values, formatted_entry_values, format_date_nonempty,
      format_time_nonempty.
Qed.

Lemma filled_fields_keys f :
  (filled_fields f).*1 `sublist_of`
    ["last_name"; "birthdate"; "birthtime"; "city"; "country"; "login"; "timezone"].
Proof.
  unfold filled_fields, text_entry, formatted_entry.
  fields_cases f; simpl; repeat constructor.
Qed.

(** [first_name] and the filled fields have distinct keys. *)
Lemma payload_keys_nodup f :
  NoDup (("first_name", PStr (first_name f)) :: filled_fields f).*1.
Proof.
  simpl. constructor.
  - intros Hin. eapply elem_of_sublist in Hin; [|apply filled_fields_keys].
    repeat (apply elem_of_cons in Hin as [Hin|Hin]; [discriminate|]).
    by apply elem_of_nil in Hin.
  - eapply sublist_NoDup; [|apply filled_fields_keys].
    apply (bool_decide_unpack _). vm_compute. exact I.
Qed.

(** C20: The payload of a valid form is a well-formed JSON object: its keys
    are distinct, and every value is a non-empty string, so that no
    field the operator left empty overwrites the backend's value. *)
Theorem build_payload_wf (f : UserForm) :
  form_valid f = true ->
  NoDup (build_payload f).*1 /\ Forall filled_value (build_payload f).
Proof.
  intros Hv. rewrite build_payload_eq. split; [apply payload_keys_nodup|].
  constructor; [by exists (first_name f)|apply filled_fields_values].
Qed.

(** Only [first_name] filled, as in the scenario of the specification:
    the payload is exactly [{"first_name": ...}]. *)
Definition mara : UserForm := mkUserForm "Mara" "" None None "" "" "" "".

Lemma build_payload_wf_witness :
  form_valid mara = true /\
  NoDup (build_payload mara).*1 /\ Forall filled_value (build_payload mara) /\
  build_payload mara = [("first_name", PStr "Mara")].
Proof.
  assert (form_valid mara = true) as H by reflexivity.
  split; [exact H|split; [|split]]; [apply (build_payload_wf mara H)..|reflexivity].
Defined.
