(* ===== verification/DateFormat.v ===== *)
(** * DateFormat: the date and time texts of the payload

    [birthdate.strftime('%Y-%m-%d')] and [birthtime.strftime('%H:%M')]
    (lines 177-180 of [src/app.py], [Payload.format_date] and
    [Payload.format_time]) are how the page writes a date and a time into
    the JSON body.  The backend reads them back as ISO dates and times.
    This file states that reading as a reference decoder ([parse_date],
    [parse_time]: fixed-width decimal fields separated by [-] and [:])
    and proves, for every date and time the widgets can produce, that
    the texts decode to the same value.

    The proofs go by a lemma on the decoding of one field followed by
    any text ([parse_field_app]) and a computed check of each field over
    its whole range ([forallb_zrange], by [vm_compute]): four-digit years
    [1000 .. 9999], months [1 .. 12], days [1 .. 31], hours [0 .. 23] and
    minutes [0 .. 59]. *)

From Stdlib Require Import ZArith String Ascii.
From stdpp Require Import base list strings.
From S2P Require Import Prelude PyVal Payload.
Import ListNotations.

(** ** The reference decoder *)

Definition digit_val (c : ascii) : option Z :=
  let n := nat_of_ascii c in
  if (48 <=? n)%nat && (n <=? 57)%nat then Some (Z.of_nat (n - 48)) else None.

(** [w] decimal digits in front of [s], read with the accumulator [acc];
    the value and the rest of the text. *)
Fixpoint parse_field (w : nat) (acc : Z) (s : string) : option (Z * string) :=
  match w with
  | O => Some (acc, s)
  | S w' =>
      match s with
      | String c s' => v ← digit_val c; parse_field w' (10 * acc + v)%Z s'
      | EmptyString => None
      end
  end.

(** The separator [c] in front of [s]. *)
Definition expect (c : ascii) (s : string) : option string :=
  match s with
  | String d s' => if decide (c = d) then Some s' else None
  | EmptyString => None
  end.

Definition parse_date (s : string) : option Date :=
  '(y, s) ← parse_field 4 0 s; s ← expect "-"%char s;
  '(m, s) ← parse_field 2 0 s; s ← expect "-"%char s;
  '(d, s) ← parse_field 2 0 s;
  if decide (s = "") then Some (mkDate y m d) else None.

Definition parse_time (s : string) : option Time :=
  '(h, s) ← parse_field 2 0 s; s ← expect ":"%char s;
  '(m, s) ← parse_field 2 0 s;
  if decide (s = "") then Some (mkTime h m) else None.

(** ** One field *)

(** Decoding a field does not look past its [w] characters. *)
Lemma parse_field_app w acc (s rest : string) :
  String.length s = w ->
  parse_field w acc (s ^^ rest) =
  (fun '(z, r) => (z, r ^^ rest)) <$> parse_field w acc s.
Proof.
  revert acc s. induction w as [|w IH]; intros acc [|c s] Hl; simpl in Hl; try lia.
  - done.
  - rewrite str_app_cons. simpl. destruct (digit_val c); simpl; [|done].
    apply IH. lia.
Qed.

(** The check of one zero-padded field over a range: [w] digits that
    decode to its value. *)
Definition field_ok (w : nat) (z : Z) : bool :=
  bool_decide (String.length (pad w (int_str z)) = w) &&
  bool_decide (parse_field w 0 (pad w (int_str z)) = Some (z, "")).

Lemma field_ok_spec w z :
  field_ok w z = true ->
  forall rest, parse_field w 0 (pad w (int_str z) ^^ rest) = Some (z, rest).
Proof.
  unfold field_ok. rewrite andb_true_iff, !bool_decide_eq_true. intros [Hl Hp] rest.
  by rewrite parse_field_app, Hp by lia.
Qed.

Lemma years_ok : forallb (field_ok 4) (zrange 1000 9999) = true.
Proof. vm_compute. reflexivity. Qed.

Lemma months_ok : forallb (field_ok 2) (zrange 1 12) = true.
Proof. vm_compute. reflexivity. Qed.

Lemma days_ok : forallb (field_ok 2) (zrange 1 31) = true.
Proof. vm_compute. reflexivity. Qed.

Lemma hours_ok : forallb (field_ok 2) (zrange 0 23) = true.
Proof. vm_compute. reflexivity. Qed.

Lemma minutes_ok : forallb (field_ok 2) (zrange 0 59) = true.
Proof. vm_compute. reflexivity. Qed.

Lemma expect_sep (c : ascii) (s : string) : expect c (String c EmptyString ^^ s) = Some s.
Proof. rewrite str_app_cons, str_app_nil_l. simpl. by rewrite decide_True. Qed.

(** The facts on one field of a date or a time the widgets produce. *)
Ltac field_fact H chk P :=
  pose proof (field_ok_spec _ _ (forallb_zrange _ _ _ _ chk H)) as P; clear H.

(** ** Round trips *)

(** C21: Every date the date input produces is written as a text the ISO
    reading decodes to the same date. *)
Theorem format_date_roundtrip (d : Date) :
  wf_date d -> parse_date (format_date d) = Some d.
Proof.
  intros (Hy & Hm & Hd).
  field_fact Hy years_ok Py. field_fact Hm months_ok Pm. field_fact Hd days_ok Pd.
  unfold parse_date, format_date. rewrite Py. cbn -[parse_field expect].
  change "-" with (String "-"%char EmptyString). rewrite expect_sep. cbn -[parse_field expect].
  rewrite Pm. cbn -[parse_field expect]. rewrite expect_sep. cbn -[parse_field expect].
  rewrite <-(str_app_nil_r (pad 2 (int_str (day d)))), Pd. simpl.
  by destruct d.
Qed.

(** C22: Every time the time input produces is written as a text the ISO
    reading decodes to the same hour and minute. *)
Theorem format_time_roundtrip (t : Time) :
  wf_time t -> parse_time (format_time t) = Some t.
Proof.
  intros (Hh & Hm). field_fact Hh hours_ok Ph. field_fact Hm minutes_ok Pm.
  unfold parse_time, format_time. rewrite Ph. cbn -[parse_field expect].
  change ":" with (String ":"%char EmptyString). rewrite expect_sep. cbn -[parse_field expect].
  rewrite <-(str_app_nil_r (pad 2 (int_str (minute t)))), Pm. simpl.
  by destruct t.
Qed.

(** ** The theorems at concrete inputs *)

Definition ada_date : Date := mkDate 1990 3 7.
Definition ada_time : Time := mkTime 9 5.

Lemma format_date_roundtrip_witness :
  wf_date ada_date /\ format_date ada_date = "1990-03-07" /\
  parse_date (format_date ada_date) = Some ada_date.
Proof.
  assert (wf_date ada_date) as H by (cbv; repeat split; discriminate).
  split; [exact H|split; [reflexivity|exact (format_date_roundtrip ada_date H)]].
Defined.

Lemma format_time_roundtrip_witness :
  wf_time ada_time /\ format_time ada_time = "09:05" /\
  parse_time (format_time ada_time) = Some ada_time.
Proof.
  assert (wf_time ada_time) as H by (cbv; repeat split; discriminate).
  split; [exact H|split; [reflexivity|exact (format_time_roundtrip ada_time H)]].
Defined.
