(* ===== verification/Actions.v ===== *)
(** * Actions: the page's action blocks, the health check and one run

    Lines 108-286 of [src/app.py].  The select box chooses one of seven
    actions; the block of that action shows its subheader and inputs and,
    on the run where its button was clicked, sends one request through
    [make_request] and renders the outcome.  The sidebar's health button
    does the same for [/health].  [app_run] is one run of the whole
    script: the static page, the chosen block, the footer and the health
    check, in the order of the source, an uncaught exception ending it.

    Every block tests the result of [make_request] with [if resp:],
    which is [resp_truthy]: false for [None] and for a response whose
    status is in [400 .. 599] ([Response.__bool__]).  [when_resp] is
    that test. *)

From Stdlib Require Import ZArith String Ascii.
From stdpp Require Import base list strings.
From S2P Require Import Prelude PyExc PyVal Runtime Helpers Payload.
Import ListNotations.

Inductive Action :=
  | ViewAllUsers | GetUserById | CreateUpdateUser | GetPlacements
  | GetBigThree | GenerateBooklet | GenerateCalendar.

#[export] Instance Action_eq_dec : EqDecision Action.
Proof. solve_decision. Defined.

(** The values of the inputs on this run: the [User ID] number input
    (its value is kept per block, the same widget key in each), the
    [Year] input, the Create/Update form and whether the block's button
    was clicked on this run. *)
Record Inputs := mkInputs {
  in_user_id : Z;
  in_year : Z;
  in_form : UserForm;
  in_clicked : bool
}.

(** [st.number_input("User ID", min_value=1, value=1, step=1)] and
    [st.number_input("Year", min_value=2020, max_value=2100, ...)]; a
    number input has at most [2^53 - 1], the largest safe integer of the
    browser. *)
Definition wf_inputs (i : Inputs) : Prop :=
  (1 <= in_user_id i <= 2 ^ 53 - 1 /\ 2020 <= in_year i <= 2100)%Z.

(** [if resp: k(resp)]. *)
Definition when_resp (resp : option Response) (k : Response -> Script unit) : Script unit :=
  match resp with
  | Some r => if response_ok r then k r else mret ()
  | None => mret ()
  end.

(** [f"{BASE_URL}/users/{user_id}{suffix}"]. *)
Definition user_url (cfg : Config) (user_id : Z) (suffix : string) : string :=
  BASE_URL cfg ^^ "/users/" ^^ int_str user_id ^^ suffix.

Definition get_kwargs (cfg : Config) (timeout : Z) : Kwargs :=
  mkKwargs (get_headers cfg false) None timeout.

(** ** The blocks *)

(** View All Users, lines 126-133. *)
Definition view_all_users (cfg : Config) (i : Inputs) : Script unit :=
  emit Main (Subheader "📋 All Users");;
  if in_clicked i then
    resp ← make_request cfg "GET" (BASE_URL cfg ^^ "/users") (get_kwargs cfg 10);
    when_resp resp (fun r =>
      data ← show_response r None;
      if truthy data then
        n ← lift (py_len data);
        emit Main (Info ("Found " ^^ int_str n ^^ " user(s)"))
      else mret ())
  else mret ().

(** Get User by ID, lines 138-144. *)
Definition get_user_by_id (cfg : Config) (i : Inputs) : Script unit :=
  emit Main (Subheader "🔍 Get User by ID");;
  if in_clicked i then
    resp ← make_request cfg "GET" (user_url cfg (in_user_id i) "") (get_kwargs cfg 10);
    when_resp resp (fun r => show_response r None;; mret ())
  else mret ().

(** Create/Update User, lines 149-198. *)
Definition create_update_user (cfg : Config) (i : Inputs) : Script unit :=
  emit Main (Subheader "➕ Create/Update User");;
  emit Main (Write "Fill in the form below. Leave fields empty if you don't want to update them.");;
  if in_clicked i then
    if negb (form_valid (in_form i)) then emit Main (Error "First name is required!")
    else
      let payload := build_payload (in_form i) in
      resp ← make_request cfg "POST" (BASE_URL cfg ^^ "/users")
               (mkKwargs (get_headers cfg true) (Some (PDict payload)) 10);
      when_resp resp (fun r => show_response r (Some "✅ User saved successfully!");; mret ())
  else mret ().

(** Get Astrology Placements, lines 203-209. *)
Definition get_placements (cfg : Config) (i : Inputs) : Script unit :=
  emit Main (Subheader "⭐ Astrology Placements");;
  if in_clicked i then
    resp ← make_request cfg "GET" (user_url cfg (in_user_id i) "/placements") (get_kwargs cfg 30);
    when_resp resp (fun r => show_response r None;; mret ())
  else mret ().

(** One line of the Big Three summary, lines 223-228:
    [if data.get(key): st.write(f"{label}{data[key].get('sign', 'N/A')} {data[key].get('degree', '')}°")]. *)
Definition summary_line (data : PyVal) (key label : string) : Script unit :=
  x ← lift (py_get data key PNone);
  if truthy x then
    b1 ← lift (py_getitem data key);
    sign ← lift (py_get b1 "sign" (PStr "N/A"));
    b2 ← lift (py_getitem data key);
    degree ← lift (py_get b2 "degree" (PStr ""));
    emit Main (Write (label ^^ py_str sign ^^ " " ^^ py_str degree ^^ "°"))
  else mret ().

(** Get Big Three, lines 214-228. *)
Definition get_big_three (cfg : Config) (i : Inputs) : Script unit :=
  emit Main (Subheader "🌟 Big Three (Sun, Moon, Ascendant)");;
  if in_clicked i then
    resp ← make_request cfg "GET" (user_url cfg (in_user_id i) "/big-three") (get_kwargs cfg 30);
    when_resp resp (fun r =>
      data ← show_response r None;
      if truthy data then
        emit Main (Markdown "### Astrology Summary");;
        summary_line data "Sun" "☀️ **Sun**: ";;
        summary_line data "Moon" "🌙 **Moon**: ";;
        summary_line data "Asc" "⬆️ **Ascendant**: "
      else mret ())
  else mret ().

(** [if resp and resp.status_code == 200: ... elif resp: show_response(resp)],
    the ending of the two PDF blocks. *)
Definition pdf_outcome (resp : option Response) (what : string) : Script unit :=
  match resp with
  | Some r =>
      if response_ok r && bool_decide (status_code r = 200%Z) then
        emit Main (Success ("✅ " ^^ what ^^ " generated successfully!"));;
        emit Main (Info "The PDF has been saved to your Downloads folder.")
      else if response_ok r then show_response r None;; mret ()
      else mret ()
  | None => mret ()
  end.

(** Generate Booklet PDF, lines 233-245. *)
Definition generate_booklet (cfg : Config) (i : Inputs) : Script unit :=
  emit Main (Subheader "📖 Generate Booklet PDF");;
  if in_clicked i then
    resp ← make_request cfg "GET" (user_url cfg (in_user_id i) "/booklet") (get_kwargs cfg 120);
    pdf_outcome resp "Booklet"
  else mret ().

(** Generate Calendar PDF, lines 250-266. *)
Definition generate_calendar (cfg : Config) (i : Inputs) : Script unit :=
  emit Main (Subheader "📅 Generate Calendar PDF");;
  if in_clicked i then
    resp ← make_request cfg "GET"
             (user_url cfg (in_user_id i) ("/calendar?year=" ^^ int_str (in_year i)))
             (get_kwargs cfg 120);
    pdf_outcome resp "Calendar"
  else mret ().

(** The [if/elif] chain on [action], lines 126-266. *)
Definition action_block (cfg : Config) (a : Action) (i : Inputs) : Script unit :=
  match a with
  | ViewAllUsers => view_all_users cfg i
  | GetUserById => get_user_by_id cfg i
  | CreateUpdateUser => create_update_user cfg i
  | GetPlacements => get_placements cfg i
  | GetBigThree => get_big_three cfg i
  | GenerateBooklet => generate_booklet cfg i
  | GenerateCalendar => generate_calendar cfg i
  end.

(** The sidebar health check, lines 275-286; the bare [except:] ignores
    a body that does not decode. *)
Definition health_check (cfg : Config) (clicked : bool) : Script unit :=
  if clicked then
    resp ← make_request cfg "GET" (BASE_URL cfg ^^ "/health") (get_kwargs cfg 5);
    when_resp resp (fun r =>
      if bool_decide (status_code r = 200%Z) then
        emit Sidebar (Success "✅ Backend is healthy!");;
        try_except (health_data ← lift (resp_json r); emit Sidebar (Json health_data))
                   (fun _ => mret ())
      else emit Sidebar (Error "❌ Backend health check failed"))
  else mret ().

(** The footer, lines 271-272. *)
Definition page_footer : Script unit :=
  emit Main (Markdown "---");;
  emit Main (Caption "💡 Note: This UI connects to the FastAPI backend for user management and astrology booklet generation.").

(** One run of the script: the page title and configuration header, the
    chosen block between two rules, the footer, then the health check. *)
Definition app_run (cfg : Config) (a : Action) (i : Inputs) (health_clicked : bool)
    : Script unit :=
  emit Main (Title "🌙 Astrology Booklet User Management");;
  emit Main (Write "Frontend UI for managing users and generating astrology booklets");;
  emit Sidebar (Header "⚙️ Configuration");;
  emit Main (Markdown "---");;
  action_block cfg a i;;
  page_footer;;
  health_check cfg health_clicked.

(** ** Properties of the blocks *)

Lemma when_resp_ok r k : response_ok r = true -> when_resp (Some r) k = k r.
Proof. intros Hok. unfold when_resp. by rewrite Hok. Qed.

Lemma when_resp_not_ok r k : response_ok r = false -> when_resp (Some r) k = mret ().
Proof. intros Hok. unfold when_resp. by rewrite Hok. Qed.

Lemma response_ok_below_400 r : (status_code r < 400)%Z -> response_ok r = true.
Proof. intros Hr. unfold response_ok. by rewrite (proj2 (Z.leb_gt _ _) Hr). Qed.

Lemma response_ok_error r : (400 <= status_code r < 600)%Z -> response_ok r = false.
Proof.
  intros Hr. unfold response_ok.
  rewrite (proj2 (Z.leb_le _ _)), (proj2 (Z.ltb_lt _ _)); lia.
Qed.

Lemma response_ok_other r : ~ (400 <= status_code r < 600)%Z -> response_ok r = true.
Proof.
  intros Hr. unfold response_ok.
  destruct (Z.leb_spec 400 (status_code r)), (Z.ltb_spec (status_code r) 600);
    simpl; lia || done.
Qed.

#[export] Hint Rewrite when_resp_ok when_resp_not_ok using assumption : app_rw.

(** The footer sends nothing and never raises. *)
Lemma sends_page_footer {B} l (c : Script B) : sends l c -> sends l (page_footer;; c).
Proof. intros Hc net st. exact (Hc net _). Qed.

#[export] Hint Resolve sends_page_footer : app.

(** The health request, as [health_check] builds it. *)
Definition health_request (cfg : Config) : Request :=
  mkRequest GET (BASE_URL cfg ^^ "/health") (get_kwargs cfg 5).

Lemma health_check_answered cfg net st r :
  net (st_sent st) (health_request cfg) = inr r ->
  health_check cfg true net st =
  when_resp (Some r) (fun r =>
      if bool_decide (status_code r = 200%Z) then
        emit Sidebar (Success "✅ Backend is healthy!");;
        try_except (health_data ← lift (resp_json r); emit Sidebar (Json health_data))
                   (fun _ => mret ())
      else emit Sidebar (Error "❌ Backend health check failed"))
    net (mkSt (st_ui st) (st_sent st ++ [health_request cfg])).
Proof.
  intros Hn. unfold health_check. rewrite run_bind.
  erewrite make_request_answered; [| | | | exact Hn]; done.
Qed.


(** C31: The outcome of an answered health check, by the status alone:
    a 200 shows the success message followed by the decoded body when
    [resp.json()] succeeds; a status in [400 .. 599] shows nothing; every
    other status shows the failure message.  So the failure message is
    shown for a status outside [400 .. 599] and only there. *)
Theorem health_check_outcome (cfg : Config) (net : Net) (st : St) (r : Response) :
  net (st_sent st) (health_request cfg) = inr r ->
  health_check cfg true net st =
  (inr tt, mkSt (st_ui st ++
                 if bool_decide (status_code r = 200%Z) then
                   (Sidebar, Success "✅ Backend is healthy!") ::
                   match resp_json r with inr v => [(Sidebar, Json v)] | inl _ => [] end
                 else if bool_decide (400 <= status_code r < 600)%Z then []
                 else [(Sidebar, Error "❌ Backend health check failed")])
                (st_sent st ++ [health_request cfg])).
Proof.
  intros Hn. rewrite (health_check_answered _ _ _ _ Hn).
  case_bool_decide as H200.
  - rewrite when_resp_ok by (apply response_ok_below_400; lia).
    rewrite bool_decide_true by done. script_unfold.
    destruct (resp_json r); simpl; by rewrite <-?app_assoc.
  - case_bool_decide as Herr.
    + rewrite when_resp_not_ok by (by apply response_ok_error). by rewrite app_nil_r.
    + rewrite when_resp_ok by (by apply response_ok_other). by rewrite bool_decide_false.
Qed.

(** The start of a clicked block whose request the backend answers:
    the subheader, then the request, sent once. *)
Ltac block_answered Hc Hn :=
  rewrite Hc, run_bind, run_emit; cbv beta iota;
  rewrite run_bind; erewrite make_request_answered; [| | | | exact Hn]; try done.

(** The request of a block that reads a user's resource. *)
Definition user_request (cfg : Config) (i : Inputs) (suffix : string) (timeout : Z) : Request :=
  mkRequest GET (user_url cfg (in_user_id i) suffix) (get_kwargs cfg timeout).

(** C34: View All Users on a success with a truthy JSON body: the body, then
    the count [len(data)], or the [TypeError] of [len] on a number or a
    boolean, which ends the run. *)
Theorem view_all_users_success (cfg : Config) (i : Inputs) (net : Net) (st : St)
    (r : Response) (v : PyVal) :
  in_clicked i = true ->
  net (st_sent st) (mkRequest GET (BASE_URL cfg ^^ "/users") (get_kwargs cfg 10)) = inr r ->
  (status_code r < 400)%Z ->
  resp_body r = Some v ->
  truthy v = true ->
  let sent := st_sent st ++ [mkRequest GET (BASE_URL cfg ^^ "/users") (get_kwargs cfg 10)] in
  let ui := st_ui st ++ [(Main, Subheader "📋 All Users"); (Main, Json v)] in
  view_all_users cfg i net st =
  match py_len v with
  | inr n => (inr tt, mkSt (ui ++ [(Main, Info ("Found " ^^ int_str n ^^ " user(s)"))]) sent)
  | inl e => (inl e, mkSt ui sent)
  end.
Proof.
  intros Hc Hn Hs Hb Ht. unfold view_all_users. block_answered Hc Hn.
  rewrite when_resp_ok by (by apply response_ok_below_400).
  rewrite run_bind, show_response_run, (proj2 (Z.ltb_lt _ _) Hs), Hb. simpl. rewrite Ht.
  simpl. rewrite <-!app_assoc. by destruct (py_len v).
Qed.

(** C32: Big Three on a success whose body is truthy but not a JSON object
    (a non-empty list, a string, a number): [data.get("Sun")] raises an
    [AttributeError] that nothing catches, ending the run. *)
Theorem big_three_non_dict_raises (cfg : Config) (i : Inputs) (net : Net) (st : St)
    (r : Response) (v : PyVal) :
  in_clicked i = true ->
  net (st_sent st) (user_request cfg i "/big-three" 30) = inr r ->
  (status_code r < 400)%Z ->
  resp_body r = Some v ->
  truthy v = true ->
  (forall d, v <> PDict d) ->
  get_big_three cfg i net st =
  (inl (mkExc AttributeError ("'" ^^ type_name v ^^ "' object has no attribute 'get'")),
   mkSt (st_ui st ++ [(Main, Subheader "🌟 Big Three (Sun, Moon, Ascendant)"); (Main, Json v);
                      (Main, Markdown "### Astrology Summary")])
        (st_sent st ++ [user_request cfg i "/big-three" 30])).
Proof.
  intros Hc Hn Hs Hb Ht Hd. unfold get_big_three. block_answered Hc Hn.
  rewrite when_resp_ok by (by apply response_ok_below_400).
  rewrite run_bind, show_response_run, (proj2 (Z.ltb_lt _ _) Hs), Hb. simpl. rewrite Ht.
  simpl. rewrite <-!app_assoc.
  destruct v as [|b|z|f|s|l|d]; [| | | | | | by destruct (Hd d)];
    unfold summary_line; script_unfold; simpl; by rewrite <-!app_assoc.
Qed.

(** C33: One line of the Big Three summary on a JSON object [data]: nothing
    when [data[key]] is missing or false; the label, the sign (default
    [N/A]) and the degree (default empty) when it is an object; an
    [AttributeError] that nothing catches when it is a true value of
    another type, such as the string ["Aries"]. *)
Theorem summary_line_dict (d : list (string * PyVal)) (key label : string) (net : Net) (st : St) :
  summary_line (PDict d) key label net st =
  match assoc_lookup key d with
  | Some b =>
      if truthy b then
        match b with
        | PDict e =>
            (inr tt, mkSt (st_ui st ++
               [(Main, Write (label ^^ py_str (from_option id (PStr "N/A") (assoc_lookup "sign" e))
                                    ^^ " " ^^ py_str (from_option id (PStr "") (assoc_lookup "degree" e))
                                    ^^ "°"))]) (st_sent st))
        | _ => (inl (mkExc AttributeError ("'" ^^ type_name b ^^ "' object has no attribute 'get'")), st)
        end
      else (inr tt, st)
  | None => (inr tt, st)
  end.
Proof.
  unfold summary_line, py_get, py_getitem. script_unfold.
  destruct (assoc_lookup key d) as [b|]; simpl; [|done].
  destruct (truthy b); [|done].
  destruct b as [| | | | | |e]; simpl; try done.
  by destruct (assoc_lookup "sign" e), (assoc_lookup "degree" e).
Qed.

(** C35: Generate Booklet PDF answered by the backend: on status 200 the two
    confirmations, whatever the body; on another status below 400 the
    body as [show_response] renders it; on an error status nothing. *)
Theorem generate_booklet_outcome (cfg : Config) (i : Inputs) (net : Net) (st : St) (r : Response) :
  in_clicked i = true ->
  net (st_sent st) (user_request cfg i "/booklet" 120) = inr r ->
  let st1 := mkSt (st_ui st ++ [(Main, Subheader "📖 Generate Booklet PDF")])
                  (st_sent st ++ [user_request cfg i "/booklet" 120]) in
  generate_booklet cfg i net st =
  if bool_decide (status_code r = 200%Z) then
    (inr tt, mkSt (st_ui st1 ++ [(Main, Success "✅ Booklet generated successfully!");
                                (Main, Info "The PDF has been saved to your Downloads folder.")])
                  (st_sent st1))
  else if response_ok r then (inr tt, (show_response r None net st1).2)
  else (inr tt, st1).
Proof.
  intros Hc Hn st1. unfold generate_booklet. block_answered Hc Hn.
  unfold pdf_outcome. case_bool_decide as H200.
  - rewrite response_ok_below_400 by lia. script_unfold. simpl. by rewrite <-!app_assoc.
  - rewrite andb_false_r. destruct (response_ok r); [|done].
    rewrite run_bind, !show_response_run. simpl. destruct (_ <? _)%Z; [destruct (resp_body r)|]; reflexivity.
Qed.

(** C36: Create/Update with an empty [first_name]: the error message, and no
    request. *)
Theorem create_update_requires_first_name (cfg : Config) (i : Inputs) (net : Net) (st : St) :
  in_clicked i = true ->
  form_valid (in_form i) = false ->
  create_update_user cfg i net st =
  (inr tt, mkSt (st_ui st ++ [(Main, Subheader "➕ Create/Update User");
                              (Main, Write "Fill in the form below. Leave fields empty if you don't want to update them.");
                              (Main, Error "First name is required!")])
                (st_sent st)).
Proof.
  intros Hc Hv. unfold create_update_user. rewrite Hc, Hv. script_unfold. simpl.
  by rewrite <-!app_assoc.
Qed.

(** The page above the action block: title, caption line, sidebar
    header and the first rule. *)
Definition page_top : list UiElem :=
  [(Main, Title "🌙 Astrology Booklet User Management");
   (Main, Write "Frontend UI for managing users and generating astrology booklets");
   (Sidebar, Header "⚙️ Configuration");
   (Main, Markdown "---")].

(** An exception that escapes the action block ends the run: the footer
    is not drawn and the health check does not run, even on the run
    where its button was clicked. *)
Lemma app_run_stops_on_exception (cfg : Config) (a : Action) (i : Inputs)
    (health_clicked : bool) (net : Net) (st st1 : St) (e : PyExc) :
  action_block cfg a i net (mkSt (st_ui st ++ page_top) (st_sent st)) = (inl e, st1) ->
  app_run cfg a i health_clicked net st = (inl e, st1).
Proof.
  intros Hb. unfold app_run. script_unfold. cbn [st_ui st_sent].
  match goal with
  | |- context [action_block cfg a i net ?s] =>
      replace s with (mkSt (st_ui st ++ page_top) (st_sent st))
        by (unfold page_top; rewrite <-!app_assoc; reflexivity)
  end.
  rewrite Hb. reflexivity.
Qed.

(** ** The theorems at concrete inputs *)

Definition empty_form : UserForm := mkUserForm "" "" None None "" "" "" "".

Definition click_user (uid : Z) : Inputs := mkInputs uid 2026 empty_form true.

Definition resp_204 : Response := mkResponse 204 "" None.


(** A 204 answer: neither 200 nor an error status, so the failure is shown. *)
Lemma health_check_outcome_witness :
  answer (inr resp_204) (st_sent no_sent) (health_request local_cfg) = inr resp_204 /\
  health_check local_cfg true (answer (inr resp_204)) no_sent =
  (inr tt, mkSt [(Sidebar, Error "❌ Backend health check failed")] [health_request local_cfg]).
Proof.
  assert (answer (inr resp_204) (st_sent no_sent) (health_request local_cfg) = inr resp_204)
    as H by reflexivity.
  split; [exact H|].
  exact (health_check_outcome local_cfg (answer (inr resp_204)) no_sent resp_204 H).
Defined.

Definition two_users : PyVal := PList [ana; PDict [("id", PInt 2); ("first_name", PStr "Mara")]].
Definition resp_users : Response := mkResponse 200 "[...]" (Some two_users).

Lemma view_all_users_success_witness :
  (status_code resp_users < 400)%Z /\ truthy two_users = true /\
  view_all_users local_cfg (click_user 1) (answer (inr resp_users)) no_sent =
  (inr tt, mkSt [(Main, Subheader "📋 All Users"); (Main, Json two_users);
                 (Main, Info "Found 2 user(s)")]
                [mkRequest GET "http://localhost:8010/users" (get_kwargs local_cfg 10)]).
Proof.
  assert ((status_code resp_users < 400)%Z) as H by (simpl; lia).
  split; [exact H|split; [reflexivity|]].
  exact (view_all_users_success local_cfg (click_user 1) (answer (inr resp_users)) no_sent
           resp_users two_users eq_refl eq_refl H eq_refl eq_refl).
Defined.

(** A backend answering the Big Three with a list: the run ends with an
    uncaught [AttributeError]. *)
Definition resp_list : Response := mkResponse 200 "(the JSON text of the list)" (Some (PList [PStr "Sun"])).

Lemma big_three_non_dict_raises_witness :
  (status_code resp_list < 400)%Z /\ (forall d, PList [PStr "Sun"] <> PDict d) /\
  fst (get_big_three local_cfg (click_user 1) (answer (inr resp_list)) no_sent) =
  inl (mkExc AttributeError "'list' object has no attribute 'get'").
Proof.
  assert ((status_code resp_list < 400)%Z) as H1 by (simpl; lia).
  assert (forall d, PList [PStr "Sun"] <> PDict d) as H2 by discriminate.
  split; [exact H1|split; [exact H2|]].
  rewrite (big_three_non_dict_raises local_cfg (click_user 1) (answer (inr resp_list)) no_sent
             resp_list (PList [PStr "Sun"]) eq_refl eq_refl H1 eq_refl eq_refl H2).
  reflexivity.
Defined.

Lemma create_update_requires_first_name_witness :
  form_valid empty_form = false /\
  create_update_user local_cfg (click_user 1) (answer (inr resp_ok_text)) no_sent =
  (inr tt, mkSt [(Main, Subheader "➕ Create/Update User");
                 (Main, Write "Fill in the form below. Leave fields empty if you don't want to update them.");
                 (Main, Error "First name is required!")] []).
Proof.
  split; [reflexivity|].
  exact (create_update_requires_first_name local_cfg (click_user 1) (answer (inr resp_ok_text))
           no_sent eq_refl eq_refl).
Defined.

(** The booklet answered 200 with a PDF body, which is not JSON: the two
    confirmations. *)
Definition resp_pdf : Response := mkResponse 200 "%PDF-1.7 (binary)" None.

Lemma generate_booklet_outcome_witness :
  generate_booklet local_cfg (click_user 1) (answer (inr resp_pdf)) no_sent =
  (inr tt, mkSt [(Main, Subheader "📖 Generate Booklet PDF");
                 (Main, Success "✅ Booklet generated successfully!");
                 (Main, Info "The PDF has been saved to your Downloads folder.")]
                [user_request local_cfg (click_user 1) "/booklet" 120]).
Proof.
  rewrite (generate_booklet_outcome local_cfg (click_user 1) (answer (inr resp_pdf)) no_sent
             resp_pdf eq_refl eq_refl).
  reflexivity.
Defined.

(** A summary whose [Sun] is the string ["Aries"]: the run ends with the
    [AttributeError] of [.get] on a string; a [Moon] object without a
    degree prints the degree sign alone. *)
Definition big_three_str : list (string * PyVal) :=
  [("Sun", PStr "Aries"); ("Moon", PDict [("sign", PStr "Leo")])].

Lemma summary_line_dict_witness :
  summary_line (PDict big_three_str) "Sun" "☀️ **Sun**: " (answer (inr resp_pdf)) no_sent =
  (inl (mkExc AttributeError "'str' object has no attribute 'get'"), no_sent) /\
  summary_line (PDict big_three_str) "Moon" "🌙 **Moon**: " (answer (inr resp_pdf)) no_sent =
  (inr tt, mkSt [(Main, Write "🌙 **Moon**: Leo °")] []).
Proof.
  split.
  - rewrite (summary_line_dict big_three_str "Sun" "☀️ **Sun**: " (answer (inr resp_pdf)) no_sent).
    reflexivity.
  - rewrite (summary_line_dict big_three_str "Moon" "🌙 **Moon**: " (answer (inr resp_pdf)) no_sent).
    reflexivity.
Defined.
