(* ===== verification/Contract.v ===== *)
(** * Contract: the backend contract of the page, and its refinement

    The abstract specification of what the page promises the backend,
    written from the table of external interfaces (spec, section 6) and
    the data model (section 3), independently of the code:
    - [route a]: the method, path, timeout and whether the bearer header
      is wanted, for each action;
    - [spec_headers]: the JSON headers, with [Authorization: Bearer]
      exactly when authentication is wanted and a token is set;
    - [spec_body]: the partial user record of Create/Update, [first_name]
      followed by the filled fields only ([Payload.filled_fields]);
    - [spec_request]: the one request an action sends;
    - [submits]: an action sends it when its button was clicked, and for
      Create/Update only when [first_name] is not empty.

    [action_block_refines] proves that each block of [src/app.py] sends
    exactly the requests of this contract, whatever the backend answers. *)

From Stdlib Require Import ZArith String Ascii.
From stdpp Require Import base list strings.
From S2P Require Import Prelude PyExc PyVal Runtime Helpers Payload Actions.
Import ListNotations.

Record Route := mkRoute {
  route_method : Method;
  route_path : Inputs -> string;
  route_timeout : Z;
  route_auth : bool
}.

Definition user_path (i : Inputs) (suffix : string) : string :=
  "/users/" ^^ int_str (in_user_id i) ^^ suffix.

Definition route (a : Action) : Route :=
  match a with
  | ViewAllUsers => mkRoute GET (fun _ => "/users") 10 false
  | GetUserById => mkRoute GET (fun i => "/users/" ^^ int_str (in_user_id i)) 10 false
  | CreateUpdateUser => mkRoute POST (fun _ => "/users") 10 true
  | GetPlacements => mkRoute GET (fun i => user_path i "/placements") 30 false
  | GetBigThree => mkRoute GET (fun i => user_path i "/big-three") 30 false
  | GenerateBooklet => mkRoute GET (fun i => user_path i "/booklet") 120 false
  | GenerateCalendar =>
      mkRoute GET (fun i => user_path i ("/calendar?year=" ^^ int_str (in_year i))) 120 false
  end.

Definition spec_headers (cfg : Config) (auth : bool) : list (string * string) :=
  [("Accept", "application/json"); ("Content-Type", "application/json")] ++
  (if auth && nonempty (token_input cfg)
   then [("Authorization", "Bearer " ^^ token_input cfg)] else []).

Definition spec_body (a : Action) (i : Inputs) : option PyVal :=
  match a with
  | CreateUpdateUser =>
      Some (PDict (("first_name", PStr (first_name (in_form i))) :: filled_fields (in_form i)))
  | _ => None
  end.

Definition spec_request (cfg : Config) (a : Action) (i : Inputs) : Request :=
  let r := route a in
  mkRequest (route_method r) (BASE_URL cfg ^^ route_path r i)
            (mkKwargs (spec_headers cfg (route_auth r)) (spec_body a i) (route_timeout r)).

Definition submits (a : Action) (i : Inputs) : bool :=
  in_clicked i && (bool_decide (a <> CreateUpdateUser) || form_valid (in_form i)).

(** ** Refinement *)

Lemma sends_eq {A} (l l' : list Request) (c : Script A) : l = l' -> sends l c -> sends l' c.
Proof. by intros ->. Qed.

(** A block whose button was not clicked sends nothing. *)
Lemma block_idle cfg a i : in_clicked i = false -> sends_nothing (action_block cfg a i).
Proof.
  intros Hc. destruct a; simpl; unfold view_all_users, get_user_by_id, create_update_user,
    get_placements, get_big_three, generate_booklet, generate_calendar;
    rewrite Hc; auto with app.
Qed.

(** The continuations after [make_request] send nothing. *)
Lemma when_resp_sends resp k :
  (forall r, sends_nothing (k r)) -> sends_nothing (when_resp resp k).
Proof. intros Hk. unfold when_resp. repeat case_match; auto with app. Qed.

Lemma summary_line_sends data key label : sends_nothing (summary_line data key label).
Proof. unfold summary_line. eauto 10 with app. Qed.

Lemma pdf_outcome_sends resp what : sends_nothing (pdf_outcome resp what).
Proof. unfold pdf_outcome. repeat case_match; eauto with app. Qed.

#[export] Hint Resolve when_resp_sends summary_line_sends pdf_outcome_sends : app.

(** Solves [sends [r] (emit ..;; .. make_request ..)] for a clicked
    block, given the request [r] of the contract. *)
Ltac req_eq :=
  unfold spec_request, get_kwargs, user_url, user_path; simpl;
  rewrite ?get_headers_eq, ?build_payload_eq, ?str_app_nil_r; reflexivity.

Ltac block_sends :=
  repeat apply sends_emit_then;
  eapply sends_bind;
  [ eapply sends_eq; [|apply make_request_sends; reflexivity]; req_eq
  | intros; repeat case_match; eauto 10 with app ].

(** The requests each block sends, by cases on the action. *)
Lemma action_block_sends (cfg : Config) (a : Action) (i : Inputs) :
  sends (if submits a i then [spec_request cfg a i] else []) (action_block cfg a i).
Proof.
  destruct (in_clicked i) eqn:Hc; [|unfold submits; rewrite Hc; by apply block_idle].
  unfold submits; rewrite Hc; simpl.
  destruct a; simpl; unfold view_all_users, get_user_by_id, create_update_user,
    get_placements, get_big_three, generate_booklet, generate_calendar; rewrite Hc;
    try block_sends.
  (* Create/Update: the check on [first_name] first. *)
  destruct (form_valid (in_form i)) eqn:Hv; simpl; [|auto with app].
  block_sends.
Qed.

(** C1: Each action block sends exactly the request of the contract when it
    submits, and nothing otherwise, whatever the backend answers: the
    method, URL, headers, body and timeout of the table. *)
Theorem action_block_refines (cfg : Config) (a : Action) (i : Inputs) :
  sends (if submits a i then [spec_request cfg a i] else []) (action_block cfg a i).
Proof. apply action_block_sends. Qed.

(** ** What a block shows after its request *)

(** The same inputs, on a run where the button was not clicked. *)
Definition unclicked (i : Inputs) : Inputs :=
  mkInputs (in_user_id i) (in_year i) (in_form i) false.



(** A clicked block that submits, unfolded up to its request: the
    blocks' headers, then [make_request]. *)
Ltac clicked_block Hs :=
  unfold submits in Hs; destruct (in_clicked _) eqn:Hc; [|done];
  match goal with |- context [action_block _ ?a _] => destruct a end; simpl in *;
  unfold view_all_users, get_user_by_id, create_update_user,
    get_placements, get_big_three, generate_booklet, generate_calendar in *;
  rewrite Hc; simpl;
  try (destruct (form_valid (in_form _)); [|done]); simpl;
  repeat (rewrite run_bind || rewrite run_emit); cbv beta iota zeta.

(** C2: A click answered with a status in [400 .. 599] leaves the page as it
    is without the click: [if resp:] is false for such a response, so no
    block renders it, although [show_response] has a branch for it. *)
Theorem error_status_renders_nothing (cfg : Config) (a : Action) (i : Inputs)
    (net : Net) (st : St) (r : Response) :
  submits a i = true ->
  net (st_sent st) (spec_request cfg a i) = inr r ->
  (400 <= status_code r < 600)%Z ->
  action_block cfg a i net st =
  (inr tt, mkSt (st_ui (action_block cfg a (unclicked i) net st).2)
                (st_sent st ++ [spec_request cfg a i])).
Proof.
  intros Hs Hn Hr. pose proof (response_ok_error r Hr) as Hok.
  clicked_block Hs.
  all: erewrite make_request_answered; [| | | | exact Hn]; [| reflexivity | reflexivity | req_eq].
  all: unfold when_resp, pdf_outcome; by rewrite ?Hok.
Qed.

(** C3: A transport failure on any action (the backend unreachable, a
    timeout, any other [requests] error) is reported inline with its
    message, and the run goes on: the page is the one without the click
    followed by the message, and the request was sent once. *)
Theorem transport_failure_reported (cfg : Config) (a : Action) (i : Inputs)
    (net : Net) (st : St) (e : PyExc) :
  submits a i = true ->
  net (st_sent st) (spec_request cfg a i) = inl e ->
  subclass (exc_class e) RequestException ->
  action_block cfg a i net st =
  (inr tt, mkSt (st_ui (action_block cfg a (unclicked i) net st).2 ++
                 [(Main, Error (transport_msg cfg e))])
                (st_sent st ++ [spec_request cfg a i])).
Proof.
  intros Hs Hn He. clicked_block Hs.
  all: erewrite make_request_failed; [| | | | exact Hn | exact He];
    [| reflexivity | reflexivity | req_eq].
  all: unfold when_resp, pdf_outcome; script_unfold; reflexivity.
Qed.

(** ** The theorems at concrete inputs *)

(** The scenario of the specification: Get User 7 answered 404 with
    [{"detail":"User not found"}].  The page shows the block's subheader
    only; the message "Error 404: User not found" never appears. *)
Lemma error_status_renders_nothing_witness :
  submits GetUserById (click_user 7) = true /\
  (400 <= status_code resp_404 < 600)%Z /\
  action_block local_cfg GetUserById (click_user 7) (answer (inr resp_404)) no_sent =
  (inr tt, mkSt [(Main, Subheader "🔍 Get User by ID")]
                [spec_request local_cfg GetUserById (click_user 7)]).
Proof.
  assert ((400 <= status_code resp_404 < 600)%Z) as H by (simpl; lia).
  split; [reflexivity|split; [exact H|]].
  exact (error_status_renders_nothing local_cfg GetUserById (click_user 7)
           (answer (inr resp_404)) no_sent resp_404 eq_refl eq_refl H).
Defined.

(** ** The requests of the contract are well formed *)

(** A request as the backend can read it: one of the timeouts of the
    page, distinct header names, and a body that is a well-formed JSON
    value when there is one. *)
Definition wf_request (r : Request) : Prop :=
  kw_timeout (req_kwargs r) ∈ [5; 10; 30; 120]%Z /\
  NoDup (kw_headers (req_kwargs r)).*1 /\
  from_option wf_val True (kw_json (req_kwargs r)).

Lemma spec_headers_nodup cfg auth : NoDup (spec_headers cfg auth).*1.
Proof.
  unfold spec_headers. destruct (auth && nonempty (token_input cfg));
    apply (bool_decide_unpack _); vm_compute; exact I.
Qed.

Lemma filled_fields_wf f : Forall (fun kv => wf_val kv.2) (filled_fields f).
Proof.
  eapply Forall_impl; [apply filled_fields_values|]. by intros kv (s & -> & _).
Qed.

Lemma spec_request_wf cfg a i : wf_request (spec_request cfg a i).
Proof.
  split; [|split; [apply spec_headers_nodup|]].
  - destruct a; apply (bool_decide_unpack _); vm_compute; exact I.
  - destruct a; simpl; try exact I. split; [apply payload_keys_nodup|].
    constructor; [exact I|]. apply Forall_fmap, filled_fields_wf.
Qed.

Lemma health_request_wf cfg : wf_request (health_request cfg).
Proof.
  split; [apply (bool_decide_unpack _); vm_compute; exact I|split; [|exact I]].
  unfold health_request, get_kwargs; cbn [req_kwargs kw_headers]. rewrite get_headers_eq.
  apply spec_headers_nodup.
Qed.

(** Create/Update of Mara against a backend that refuses the connection:
    the header and the message that the backend is unreachable. *)
Definition refused : PyExc := mkExc ConnectionError "[Errno 111] Connection refused".

Definition mara_inputs : Inputs := mkInputs 1 2026 mara true.

Lemma transport_failure_reported_witness :
  submits CreateUpdateUser mara_inputs = true /\
  subclass (exc_class refused) RequestException /\
  action_block local_cfg CreateUpdateUser mara_inputs (answer (inl refused)) no_sent =
  (inr tt, mkSt [(Main, Subheader "➕ Create/Update User");
                 (Main, Write "Fill in the form below. Leave fields empty if you don't want to update them.");
                 (Main, Error (conn_failed_msg local_cfg))]
                [spec_request local_cfg CreateUpdateUser mara_inputs]).
Proof.
  assert (subclass (exc_class refused) RequestException) as He by apply ConnectionError_RequestException.
  split; [reflexivity|split; [exact He|]].
  rewrite (transport_failure_reported local_cfg CreateUpdateUser mara_inputs (answer (inl refused))
             no_sent refused eq_refl eq_refl He).
  reflexivity.
Defined.
