(* ===== verification/Session.v ===== *)
(** * Session: the page across reruns

    Streamlit keeps the values of the widgets between runs and reruns the
    whole script on every interaction; a button is true only on the run
    its click triggers.  A [Session] holds what survives a run of
    [src/app.py]: the sidebar inputs ([Config]), the selected action, the
    other inputs, the requests sent so far, and the page and the escaped
    exception of the last run.  [step] applies one interaction: the
    widget it changes, then a rerun ([rerun]) with the button it
    clicked.  [reachable] is the reflexive-transitive closure of [step]
    from a start session; [open_session] is the page as it opens, the
    first run on the widgets' defaults.  A number input commits only a
    value within its bounds ([number_input]); a run that an exception
    ends shows the page drawn so far and Streamlit's error box, redacted
    because line 11 turns [client.showErrorDetails] off ([crash_box]).

    The theorems show what one interaction sends ([step_sends_contract]),
    that every request of a session is one of the contract's
    ([reachable_conforms], by induction on [reachable]) and well formed
    ([sent_requests_wf]), that the configuration is read again on every
    run ([base_url_takes_effect]), that an action can be retried after
    any outcome, a transport failure or an escaped exception included
    ([retry_resends]), that nothing is sent without a click
    ([requests_bounded_by_clicks]), that a crash shows only a redacted
    box ([crash_redacted]), that the number inputs stay within their
    bounds ([reachable_inputs_wf], through the generic invariant lemma
    [reachable_inv]).  [run_events] replays a list of interactions; a
    replay from a session is reachable from it ([reachable_run_events]),
    which the witnesses use. *)

From Stdlib Require Import ZArith String Ascii.
From stdpp Require Import base list strings.
From S2P Require Import Prelude PyExc PyVal Runtime Helpers Payload Actions Contract.
Import ListNotations.

Record Session := mkSession {
  s_cfg : Config;
  s_action : Action;
  s_inputs : Inputs;
  s_sent : list Request;
  s_page : list UiElem;
  s_error : option PyExc
}.

(** The interactions the page offers. *)
Inductive Event :=
  | SetBaseUrl (url : string)
  | SetToken (token : string)
  | SelectAction (a : Action)
  | SetInputs (user_id year : Z) (form : UserForm)
  | ClickAction
  | ClickHealth.

Definition with_clicked (i : Inputs) (b : bool) : Inputs :=
  mkInputs (in_user_id i) (in_year i) (in_form i) b.

(** [st.number_input(..., min_value=lo, max_value=hi)]: the widget
    commits a value the user types only when it lies in [[lo, hi]], and
    keeps its value otherwise; an integer input without [max_value] is
    bounded by [2^53 - 1], the largest safe integer of the browser. *)
Definition number_input (lo hi v old : Z) : Z :=
  if bool_decide (lo <= v <= hi)%Z then v else old.

(** The widget an interaction changes. *)
Definition set_widgets (ev : Event) (s : Session) : Session :=
  match ev with
  | SetBaseUrl u =>
      mkSession (mkConfig u (token_input (s_cfg s))) (s_action s) (s_inputs s)
                (s_sent s) (s_page s) (s_error s)
  | SetToken t =>
      mkSession (mkConfig (BASE_URL (s_cfg s)) t) (s_action s) (s_inputs s)
                (s_sent s) (s_page s) (s_error s)
  | SelectAction a =>
      mkSession (s_cfg s) a (s_inputs s) (s_sent s) (s_page s) (s_error s)
  | SetInputs uid y f =>
      let i := s_inputs s in
      mkSession (s_cfg s) (s_action s)
                (mkInputs (number_input 1 (2 ^ 53 - 1) uid (in_user_id i))
                          (number_input 2020 2100 y (in_year i)) f false)
                (s_sent s) (s_page s) (s_error s)
  | ClickAction | ClickHealth => s
  end.

Definition action_clicked (ev : Event) : bool :=
  match ev with ClickAction => true | _ => false end.

Definition health_clicked (ev : Event) : bool :=
  match ev with ClickHealth => true | _ => false end.

(** [st.set_option('client.showErrorDetails', False)], line 11. *)
Definition showErrorDetails : bool := false.

(** What Streamlit draws under the page for an exception that ends a
    run: the exception's text, or, with [showErrorDetails] off, a generic
    box whose details are redacted. *)
Definition crash_box (e : PyExc) : UiElem :=
  (Main, ErrorBox (if showErrorDetails then Some (exc_msg e) else None)).

(** One run of the script on the session's widgets. *)
Definition rerun (net : Net) (s : Session) (clicked health : bool) : Session :=
  let '(r, st) := run (app_run (s_cfg s) (s_action s) (with_clicked (s_inputs s) clicked) health)
                      net (s_sent s) in
  mkSession (s_cfg s) (s_action s) (s_inputs s) (st_sent st)
            (st_ui st ++ match r with inl e => [crash_box e] | inr _ => [] end)
            (match r with inl e => Some e | inr _ => None end).

Definition step (net : Net) (s : Session) (ev : Event) : Session :=
  rerun net (set_widgets ev s) (action_clicked ev) (health_clicked ev).

(** The widgets' defaults, lines 29-38, 108-119, 140, 156-165 and 253:
    [os.getenv("API_BASE_URL", "http://localhost:8010")], an empty
    token, the first action, user id 1, year 2026, an empty form. *)
Definition API_BASE_URL_default : string := "http://localhost:8010".

Definition form_defaults : UserForm := mkUserForm "" "" None None "" "" "" "".

Definition widget_defaults (env : option string) : Session :=
  mkSession (mkConfig (default API_BASE_URL_default env) "") ViewAllUsers
            (mkInputs 1 2026 form_defaults false) [] [] None.

(** The page as it opens: the first run, nothing clicked. *)
Definition open_session (net : Net) (env : option string) : Session :=
  rerun net (widget_defaults env) false false.

Inductive reachable (net : Net) (s0 : Session) : Session -> Prop :=
  | reachable_start : reachable net s0 s0
  | reachable_step s ev : reachable net s0 s -> reachable net s0 (step net s ev).

(** ** What a run sends *)

(** A block whose button was not clicked only draws its header. *)
Lemma block_idle_returns cfg a i : in_clicked i = false -> returns (action_block cfg a i).
Proof.
  intros Hc net st. destruct a; simpl; unfold view_all_users, get_user_by_id,
    create_update_user, get_placements, get_big_three, generate_booklet,
    generate_calendar; rewrite Hc; script_unfold; eauto.
Qed.

Lemma health_check_sends cfg : sends [health_request cfg] (health_check cfg true).
Proof.
  unfold health_check. apply sends_bind; [apply make_request_sends; reflexivity|].
  intros; eauto 10 with app.
Qed.

(** On the run of an action's button, the run sends what the block does. *)
Lemma app_run_sends_action cfg a i :
  sends (if submits a i then [spec_request cfg a i] else []) (app_run cfg a i false).
Proof.
  unfold app_run. repeat apply sends_emit_then.
  apply sends_bind; [apply action_block_sends|]. intros _.
  apply sends_page_footer. unfold health_check. auto with app.
Qed.

(** On the run of the health button, the health request only. *)
Lemma app_run_sends_health cfg a i :
  in_clicked i = false -> sends [health_request cfg] (app_run cfg a i true).
Proof.
  intros Hc. unfold app_run. repeat apply sends_emit_then.
  rewrite <-(app_nil_l [health_request cfg]).
  apply sends_seq; [by apply block_idle_returns|by apply block_idle|].
  intros _. apply sends_page_footer, health_check_sends.
Qed.

(** On any other run, nothing. *)
Lemma app_run_sends_idle cfg a i :
  in_clicked i = false -> sends_nothing (app_run cfg a i false).
Proof.
  intros Hc. pose proof (app_run_sends_action cfg a i) as H.
  unfold submits in H. by rewrite Hc in H.
Qed.

(** ** One interaction *)

(** The requests of one interaction, from the contract: the clicked
    action's request when it submits, the health request, or none. *)
Definition event_requests (s : Session) (ev : Event) : list Request :=
  let s' := set_widgets ev s in
  let i := with_clicked (s_inputs s') true in
  match ev with
  | ClickAction =>
      if submits (s_action s') i then [spec_request (s_cfg s') (s_action s') i] else []
  | ClickHealth => [health_request (s_cfg s')]
  | _ => []
  end.

Lemma rerun_sent net s clicked health l :
  sends l (app_run (s_cfg s) (s_action s) (with_clicked (s_inputs s) clicked) health) ->
  s_sent (rerun net s clicked health) = s_sent s ++ l.
Proof.
  intros Hl. unfold rerun, run. specialize (Hl net (mkSt [] (s_sent s))).
  destruct (app_run _ _ _ _ _ _) as [r st]. simpl in *. done.
Qed.

(** Each interaction sends exactly the requests of the contract for it,
    whatever the backend answers and even when the run ends with an
    exception: a click on the action's button its one request, a click
    on the health button the health request, any other interaction none. *)
Theorem step_sent (net : Net) (s : Session) (ev : Event) :
  s_sent (step net s ev) = s_sent s ++ event_requests s ev.
Proof.
  unfold step. rewrite (rerun_sent net (set_widgets ev s) _ _ (event_requests s ev)).
  - by destruct ev.
  - unfold event_requests.
    destruct ev; cbn [set_widgets action_clicked health_clicked s_cfg s_action s_inputs];
      cbv beta iota zeta.
    all: with_strategy opaque [app_run] first
      [ apply app_run_sends_idle; reflexivity
      | apply app_run_sends_action
      | apply app_run_sends_health; reflexivity ].
Qed.

(** The widgets survive a run unchanged. *)
Lemma step_widgets net s ev :
  s_cfg (step net s ev) = s_cfg (set_widgets ev s) /\
  s_action (step net s ev) = s_action (set_widgets ev s) /\
  s_inputs (step net s ev) = s_inputs (set_widgets ev s).
Proof. unfold step, rerun. by destruct (run _ _ _). Qed.

(** ** Sequences of interactions *)

(** The session after the interactions [evs], one after the other. *)
Fixpoint run_events (net : Net) (s : Session) (evs : list Event) : Session :=
  match evs with
  | [] => s
  | ev :: evs' => run_events net (step net s ev) evs'
  end.

Definition sets_base_url (ev : Event) : bool :=
  match ev with SetBaseUrl _ => true | _ => false end.

(** A request of the contract under the configuration [cfg]. *)
Definition contract_request (cfg : Config) (r : Request) : Prop :=
  (exists a i, r = spec_request cfg a i) \/ r = health_request cfg.

Lemma run_events_app net s evs evs' :
  run_events net s (evs ++ evs') = run_events net (run_events net s evs) evs'.
Proof. revert s. induction evs; simpl; auto. Qed.

Lemma reachable_run_events net s0 s evs :
  reachable net s0 s -> reachable net s0 (run_events net s evs).
Proof.
  revert s. induction evs as [|ev evs IH]; intros s Hs; simpl; [done|].
  apply IH. by constructor.
Qed.

Lemma event_requests_conform s ev :
  Forall (contract_request (s_cfg (set_widgets ev s))) (event_requests s ev).
Proof.
  unfold event_requests, contract_request.
  destruct ev; simpl; repeat case_match;
    repeat apply Forall_cons_2; try apply Forall_nil_2; [left; eauto|by right].
Qed.

Lemma event_requests_length s ev : length (event_requests s ev) <= 1.
Proof. unfold event_requests. destruct ev; repeat case_match; simpl; lia. Qed.

Lemma contract_request_url cfg r :
  contract_request cfg r -> exists p, req_url r = BASE_URL cfg ^^ p.
Proof. intros [(a & i & ->)| ->]; eexists; reflexivity. Qed.

Lemma step_base_url net s ev :
  sets_base_url ev = false -> BASE_URL (s_cfg (step net s ev)) = BASE_URL (s_cfg s).
Proof.
  intros He. destruct (step_widgets net s ev) as [-> _]. by destruct ev.
Qed.

(** The requests of one interaction go to the base URL the session has
    after it. *)
Lemma step_urls net s ev :
  exists l, s_sent (step net s ev) = s_sent s ++ l /\
    Forall (fun r => exists p, req_url r = BASE_URL (s_cfg (step net s ev)) ^^ p) l.
Proof.
  exists (event_requests s ev). split; [apply step_sent|].
  destruct (step_widgets net s ev) as [-> _].
  eapply Forall_impl; [apply event_requests_conform|]. apply contract_request_url.
Qed.

Lemma event_requests_click s s' :
  s_cfg s' = s_cfg s -> s_action s' = s_action s -> s_inputs s' = s_inputs s ->
  event_requests s' ClickAction = event_requests s ClickAction.
Proof. intros Hc Ha Hi. unfold event_requests. simpl. by rewrite Hc, Ha, Hi. Qed.

(** Past a change of the base URL, the requests of the interactions that
    do not change it again go to the new base URL. *)
Lemma run_events_urls net s evs :
  forallb (negb ∘ sets_base_url) evs = true ->
  BASE_URL (s_cfg (run_events net s evs)) = BASE_URL (s_cfg s) /\
  exists l, s_sent (run_events net s evs) = s_sent s ++ l /\
    Forall (fun r => exists p, req_url r = BASE_URL (s_cfg s) ^^ p) l.
Proof.
  revert s. induction evs as [|ev evs IH]; intros s Hevs; simpl in *.
  - split; [done|]. exists []. by rewrite app_nil_r.
  - apply andb_true_iff in Hevs as [Hev Hevs]. apply negb_true_iff in Hev.
    destruct (IH (step net s ev) Hevs) as [Hb (l & Hl & Hf)].
    destruct (step_urls net s ev) as (l0 & Hl0 & Hf0).
    rewrite step_base_url in Hb, Hf, Hf0 by done.
    split; [done|]. exists (l0 ++ l). rewrite Hl, Hl0, app_assoc.
    split; [done|]. by apply Forall_app_2.
Qed.

Definition is_click (ev : Event) : bool := action_clicked ev || health_clicked ev.

Lemma event_requests_click_length s ev : length (event_requests s ev) <= length (filter is_click [ev]).
Proof. pose proof (event_requests_length s ev). destruct ev; simpl in *; lia. Qed.

(** ** Properties of sessions *)

(** C4: One interaction appends to the requests of the session exactly the
    requests of the contract for it, whatever the backend answers and
    even when the run ends with an exception: at most one request, and
    one of the contract's under the configuration the session then has. *)
Theorem step_sends_contract (net : Net) (s : Session) (ev : Event) :
  s_sent (step net s ev) = s_sent s ++ event_requests s ev /\
  length (event_requests s ev) <= 1 /\
  Forall (contract_request (s_cfg (step net s ev))) (event_requests s ev).
Proof.
  split; [apply step_sent|split; [apply event_requests_length|]].
  destruct (step_widgets net s ev) as [-> _]. apply event_requests_conform.
Qed.

(** C5: Every request a session ever sent, from the start session on, is a
    request of the contract (an action's request or the health request)
    under some configuration, by induction on [reachable]. *)
Theorem reachable_conforms (net : Net) (s0 s : Session) :
  reachable net s0 s ->
  exists l, s_sent s = s_sent s0 ++ l /\ Forall (fun r => exists cfg, contract_request cfg r) l.
Proof.
  induction 1 as [|s ev _ (l & Hl & Hf)]; [exists []; by rewrite app_nil_r|].
  exists (l ++ event_requests s ev). rewrite step_sent, Hl, app_assoc. split; [done|].
  apply Forall_app_2; [done|].
  eapply Forall_impl; [apply event_requests_conform|]. eauto.
Qed.

(** C7: An action can be retried: each of [n] clicks on its button sends the
    request again, whatever the backend answered to the previous ones
    (an error status, a transport failure or an escaped exception). *)
Theorem retry_resends (net : Net) (s : Session) (n : nat) :
  s_sent (run_events net s (repeat ClickAction n)) =
  s_sent s ++ concat (repeat (event_requests s ClickAction) n).
Proof.
  revert s. induction n as [|n IH]; intros s; simpl; [by rewrite app_nil_r|].
  rewrite IH, step_sent, <-app_assoc.
  destruct (step_widgets net s ClickAction) as (Hc & Ha & Hi).
  by rewrite (event_requests_click s (step net s ClickAction)).
Qed.

(** C8: The base URL is read again on every run: after the operator sets it
    to [u], every request of the following interactions that do not set
    it again goes to [u]. *)
Theorem base_url_takes_effect (net : Net) (s : Session) (u : string) (evs : list Event) :
  forallb (negb ∘ sets_base_url) evs = true ->
  exists l, s_sent (run_events net s (SetBaseUrl u :: evs)) = s_sent s ++ l /\
    Forall (fun r => exists p, req_url r = u ^^ p) l.
Proof.
  intros Hevs. simpl.
  destruct (run_events_urls net (step net s (SetBaseUrl u)) evs Hevs) as [_ (l & Hl & Hf)].
  rewrite step_sent in Hl. exists l. rewrite Hl. split; [by rewrite app_nil_r|].
  destruct (step_widgets net s (SetBaseUrl u)) as [Hc _]. by rewrite Hc in Hf.
Qed.

(** C6: Every request of a session is well formed when those of its start
    session are: a timeout of the page, distinct header names, and a
    well-formed JSON body for Create/Update. *)
Theorem sent_requests_wf (net : Net) (s0 s : Session) :
  reachable net s0 s -> Forall wf_request (s_sent s0) -> Forall wf_request (s_sent s).
Proof.
  induction 1 as [|s ev _ IH]; intros H0; [done|].
  rewrite step_sent. apply Forall_app_2; [by apply IH|].
  eapply Forall_impl; [apply event_requests_conform|].
  intros r [(a & i & ->)| ->]; [apply spec_request_wf|apply health_request_wf].
Qed.

(** C9: The page sends nothing by itself: over any sequence of
    interactions, the requests sent are at most one per click, and none
    without a click (no polling, no automatic retry). *)
Theorem requests_bounded_by_clicks (net : Net) (s : Session) (evs : list Event) :
  exists l, s_sent (run_events net s evs) = s_sent s ++ l /\
            length l <= length (filter is_click evs).
Proof.
  revert s. induction evs as [|ev evs IH]; intros s; simpl.
  - exists []. by rewrite app_nil_r.
  - destruct (IH (step net s ev)) as (l & Hl & Hlen).
    exists (event_requests s ev ++ l). rewrite Hl, step_sent, app_assoc. split; [done|].
    pose proof (event_requests_click_length s ev) as H1.
    change (ev :: evs) with ([ev] ++ evs). rewrite filter_app, !length_app. lia.
Qed.

(** ** Invariants of the widgets *)

(** A property that every interaction preserves holds of every session
    reachable from one where it holds. *)
Section Always.
Variables (net : Net) (P : Session -> Prop).
Hypothesis step_P : forall s ev, P s -> P (step net s ev).

Lemma reachable_inv s0 s : reachable net s0 s -> P s0 -> P s.
Proof. induction 1; auto. Qed.
End Always.

Lemma set_widgets_sent ev s : s_sent (set_widgets ev s) = s_sent s.
Proof. by destruct ev. Qed.

Lemma number_input_range lo hi v old :
  (lo <= old <= hi)%Z -> (lo <= number_input lo hi v old <= hi)%Z.
Proof. unfold number_input. case_bool_decide; auto. Qed.

Lemma set_widgets_inputs_wf ev s :
  wf_inputs (s_inputs s) -> wf_inputs (s_inputs (set_widgets ev s)).
Proof.
  unfold wf_inputs. destruct ev; simpl; auto.
  intros [? ?]. split; by apply number_input_range.
Qed.

Lemma open_session_inputs net env : s_inputs (open_session net env) = mkInputs 1 2026 form_defaults false.
Proof. unfold open_session, rerun. by destruct (run _ _ _). Qed.

(** C11: the number inputs never hold a value outside their bounds: in
    every session reachable from the page as it opens, whatever the user
    types, the user id lies in [[1, 2^53 - 1]] and the year in
    [[2020, 2100]]. *)
Theorem reachable_inputs_wf (net : Net) (env : option string) (s : Session) :
  reachable net (open_session net env) s -> wf_inputs (s_inputs s).
Proof.
  intros H. refine (reachable_inv net (wf_inputs ∘ s_inputs) _ _ _ H _).
  - intros s' ev. unfold compose. destruct (step_widgets net s' ev) as (_ & _ & ->).
    apply set_widgets_inputs_wf.
  - unfold compose. rewrite open_session_inputs. unfold wf_inputs. simpl. lia.
Qed.

(** C10: with [client.showErrorDetails] off, a run that an exception
    ends records the exception, keeps the requests sent before it, and
    shows the page drawn up to it followed by a box whose details are
    redacted: the exception's message is not shown. *)
Theorem crash_redacted (net : Net) (s : Session) (ev : Event) (e : PyExc) (st1 : St) :
  action_block (s_cfg (set_widgets ev s)) (s_action (set_widgets ev s))
    (with_clicked (s_inputs (set_widgets ev s)) (action_clicked ev)) net
    (mkSt page_top (s_sent s)) = (inl e, st1) ->
  s_error (step net s ev) = Some e /\ s_sent (step net s ev) = st_sent st1 /\
  s_page (step net s ev) = st_ui st1 ++ [(Main, ErrorBox None)].
Proof.
  intros Hb. unfold step, rerun, run.
  rewrite (app_run_stops_on_exception _ _ _ _ net (mkSt [] (s_sent (set_widgets ev s))) st1 e)
    by (rewrite set_widgets_sent; exact Hb).
  done.
Qed.

(** ** The theorems at concrete inputs *)

(** The page as it opens: the default base URL and token, View All Users
    selected, nothing clicked; the backend answers every request with the
    list of two users. *)
Definition start_session : Session :=
  mkSession local_cfg ViewAllUsers (mkInputs 7 2026 empty_form false) [] [] None.

Definition users_net : Net := answer (inr resp_users).

Lemma reachable_conforms_witness :
  reachable users_net start_session
    (run_events users_net start_session [ClickAction; ClickHealth]) /\
  s_sent (run_events users_net start_session [ClickAction; ClickHealth]) =
    [spec_request local_cfg ViewAllUsers (mkInputs 7 2026 empty_form true);
     health_request local_cfg] /\
  exists l, s_sent (run_events users_net start_session [ClickAction; ClickHealth]) =
              s_sent start_session ++ l /\
            Forall (fun r => exists cfg, contract_request cfg r) l.
Proof.
  assert (reachable users_net start_session
            (run_events users_net start_session [ClickAction; ClickHealth])) as H
    by (apply reachable_run_events; constructor).
  split; [exact H|split; [vm_compute; reflexivity|]].
  exact (reachable_conforms users_net start_session _ H).
Defined.

Lemma base_url_takes_effect_witness :
  forallb (negb ∘ sets_base_url) [ClickHealth; SetToken "t0k"; ClickAction] = true /\
  exists l, s_sent (run_events users_net start_session
                      (SetBaseUrl "http://api.example:9000" ::
                       [ClickHealth; SetToken "t0k"; ClickAction])) =
            s_sent start_session ++ l /\
            Forall (fun r => exists p, req_url r = "http://api.example:9000" ^^ p) l.
Proof.
  assert (forallb (negb ∘ sets_base_url) [ClickHealth; SetToken "t0k"; ClickAction] = true)
    as H by reflexivity.
  split; [exact H|].
  exact (base_url_takes_effect users_net start_session "http://api.example:9000" _ H).
Defined.

(** Create/Update with only [first_name] filled, then the health check. *)
Definition mara_events : list Event :=
  [SelectAction CreateUpdateUser; SetInputs 7 2026 mara; ClickAction; ClickHealth].

Lemma sent_requests_wf_witness :
  reachable users_net start_session (run_events users_net start_session mara_events) /\
  Forall wf_request (s_sent start_session) /\
  length (s_sent (run_events users_net start_session mara_events)) = 2%nat /\
  Forall wf_request (s_sent (run_events users_net start_session mara_events)).
Proof.
  assert (reachable users_net start_session (run_events users_net start_session mara_events))
    as H by (apply reachable_run_events; constructor).
  assert (Forall wf_request (s_sent start_session)) as H0 by apply Forall_nil_2.
  split; [exact H|split; [exact H0|split; [vm_compute; reflexivity|]]].
  exact (sent_requests_wf users_net start_session _ H H0).
Defined.

(** Big Three selected on the page as it opens, and a backend that
    answers with a list: the run of the button raises [AttributeError]. *)
Definition big_three_session : Session :=
  mkSession (s_cfg (widget_defaults None)) GetBigThree (s_inputs (widget_defaults None)) [] [] None.

Definition list_net : Net := answer (inr resp_list).

Definition list_get_exc : PyExc := mkExc AttributeError "'list' object has no attribute 'get'".

Definition big_three_crash_st : St :=
  snd (action_block (s_cfg big_three_session) GetBigThree
         (with_clicked (s_inputs big_three_session) true) list_net (mkSt page_top [])).

Lemma crash_redacted_witness :
  action_block (s_cfg (set_widgets ClickAction big_three_session))
    (s_action (set_widgets ClickAction big_three_session))
    (with_clicked (s_inputs (set_widgets ClickAction big_three_session)) true) list_net
    (mkSt page_top (s_sent big_three_session)) = (inl list_get_exc, big_three_crash_st) /\
  s_error (step list_net big_three_session ClickAction) = Some list_get_exc /\
  s_sent (step list_net big_three_session ClickAction) = st_sent big_three_crash_st /\
  s_page (step list_net big_three_session ClickAction) =
    st_ui big_three_crash_st ++ [(Main, ErrorBox None)].
Proof.
  assert (action_block (s_cfg (set_widgets ClickAction big_three_session))
    (s_action (set_widgets ClickAction big_three_session))
    (with_clicked (s_inputs (set_widgets ClickAction big_three_session)) true) list_net
    (mkSt page_top (s_sent big_three_session)) = (inl list_get_exc, big_three_crash_st))
    as H by (vm_compute; reflexivity).
  split; [exact H|exact (crash_redacted list_net big_three_session ClickAction _ _ H)].
Defined.

(** Out-of-range values typed into the number inputs are not committed. *)
Definition out_of_range_events : list Event :=
  [SetInputs 0 1999 form_defaults; ClickAction; SetInputs (2 ^ 53) 2101 form_defaults].

Lemma reachable_inputs_wf_witness :
  reachable users_net (open_session users_net None)
    (run_events users_net (open_session users_net None) out_of_range_events) /\
  s_inputs (run_events users_net (open_session users_net None) out_of_range_events) =
    mkInputs 1 2026 form_defaults false /\
  wf_inputs (s_inputs (run_events users_net (open_session users_net None) out_of_range_events)).
Proof.
  assert (reachable users_net (open_session users_net None)
            (run_events users_net (open_session users_net None) out_of_range_events)) as H
    by (apply reachable_run_events; constructor).
  split; [exact H|split; [vm_compute; reflexivity|]].
  exact (reachable_inputs_wf users_net None _ H).
Defined.
